(** * The addon manager of Fork (Pearl/Pearl.addons.py)

    A shallow embedding of [AddonManager]: its three dictionaries, the
    lifecycle methods [load_addon], [activate_addon], [deactivate_addon],
    [reload_addon], the listings [get_active_addons] and
    [get_loaded_addons] and the dispatcher [execute_addon_function],
    followed by the properties of the lifecycle that the design document
    states and by further properties of the code.  [discover_addons] and
    [get_addon_info] read the directory and the live module objects
    through oracles of their own.  [main], a usage example that prints
    what the methods return, is not embedded.

    What lies outside the manager (the import system, the metadata files on
    disk, the code of the addons) is a [World]: a record of oracles that the
    methods consult.  Every method also produces the list of the external
    events it caused (imports, file look-ups, calls into addon code, log
    records), so that statements such as "the unit is not initialised" can
    be written down. *)

From Stdlib Require Import ZArith String List.
From stdpp Require Import base option gmap strings list fin_maps pretty.

Set Warnings "-register-all".

Local Open Scope string_scope.
Local Open Scope list_scope.
Local Open Scope stdpp_scope.

(** ** Python values *)

(** The values the manager looks at: what a JSON document holds, and the
    callables of a module.  A callable is known by a number; what a call to
    it does is up to the [World]. *)
Inductive PyVal : Type :=
| VNone
| VBool (b : bool)
| VInt (n : Z)
| VStr (s : string)
| VList (xs : list PyVal)
| VDict (kvs : list (string * PyVal))
| VCallable (f : nat).

(** [callable(x)] *)
Definition callable (v : PyVal) : bool :=
  match v with
  | VCallable _ => true
  | _ => false
  end.

(** [type(x).__name__], as it appears in the interpreter's error messages. *)
Definition type_name (v : PyVal) : string :=
  match v with
  | VNone => "NoneType"
  | VBool _ => "bool"
  | VInt _ => "int"
  | VStr _ => "str"
  | VList _ => "list"
  | VDict _ => "dict"
  | VCallable _ => "function"
  end.

(** The text an f-string puts for [{v}].  Exact for strings, numbers,
    booleans and None, the only values that reach a message; containers and
    callables are abbreviated. *)
Definition py_format (v : PyVal) : string :=
  match v with
  | VNone => "None"
  | VBool true => "True"
  | VBool false => "False"
  | VInt n => pretty n
  | VStr s => s
  | VList _ => "[...]"
  | VDict _ => "{...}"
  | VCallable _ => "<function>"
  end.

(** ** Exceptions *)

(** The classes the manager raises or tells apart.  All of them derive from
    [Exception], which is what the handlers of the manager catch;
    [OtherError] stands for any further such class raised by addon code.
    What does not derive from [Exception] (an interrupt from the keyboard,
    the exit of the interpreter) ends the program and is outside the
    model. *)
Inductive ExnClass : Type :=
| AttributeError
| ImportError
| ValueError
| TypeError
| KeyError
| JSONDecodeError
| OtherError (cls : string).

Record Exn : Type := mkExn { exn_class : ExnClass; exn_msg : string }.

(** [isinstance(e, json.JSONDecodeError)] *)
Definition is_JSONDecodeError (e : Exn) : bool :=
  match exn_class e with
  | JSONDecodeError => true
  | _ => false
  end.

Inductive Outcome (A : Type) : Type :=
| Ok (a : A)
| Raise (e : Exn).
Arguments Ok {A} a.
Arguments Raise {A} e.

(** ** Module objects *)

(** A module as the import system hands it over: its name, its docstring,
    and the names bound by the top-level statements of its file.  The import
    system gives every module the attributes [__name__] and [__doc__], the
    latter bound to the docstring or to [None] when the file has none; an
    assignment in the file rebinds them. *)
Record Module : Type := mkModule {
  module_name : string;
  docstring : option string;
  bindings : gmap string PyVal
}.

(** Attribute look-up on a module: [Some v] when the attribute exists.  The
    further attributes that the import system sets ([__file__], [__spec__],
    [__loader__], [__package__], ...) are not part of the model. *)
Definition py_getattr (m : Module) (name : string) : option PyVal :=
  match bindings m !! name with
  | Some v => Some v
  | None =>
      if String.eqb name "__doc__"
      then Some (match docstring m with Some d => VStr d | None => VNone end)
      else if String.eqb name "__name__"
      then Some (VStr (module_name m))
      else None
  end.

(** [hasattr(m, name)] *)
Definition hasattr (m : Module) (name : string) : bool :=
  match py_getattr m name with
  | Some _ => true
  | None => false
  end.

(** [getattr(m, name, default)] *)
Definition getattr_default (m : Module) (name : string) (default : PyVal) : PyVal :=
  match py_getattr m name with
  | Some v => v
  | None => default
  end.

(** ** The world outside the manager *)

(** One world describes the surroundings during one operation; a sequence
    of operations gets one world per operation, so that files and the
    behaviour of units may change in between.  The code of a unit is
    opaque: a call into it returns or raises, and does not call back into
    the manager.

    A file is named by its directory and its name in it, the two arguments
    of [os.path.join].  [load_json] stands for opening the file, parsing it
    with [json.load] and handing the document to [dict.update]: it gives the
    entries that [update] takes from the document, or the exception raised
    on the way.  The entries are the members of a JSON object; [update]
    also takes a document that it can read as a sequence of key and value
    pairs, so the empty array and the empty string give no entry, and an
    array of two-element arrays gives the entries that its elements spell
    out.  Keys are
    strings, as in a JSON object; an array of pairs with a key of another
    type is not covered.  The exception is [json.JSONDecodeError] for
    malformed JSON, and of another class when the file cannot be read or
    [update] rejects the document, as it does a number, [null] or the
    array [[1]]. *)
Record World : Type := mkWorld {
  (** [importlib.import_module(name)] *)
  import_module : string -> Outcome Module;
  (** [os.path.exists(os.path.join(dir, file))] *)
  path_exists : string -> string -> bool;
  load_json : string -> string -> Outcome (gmap string PyVal);
  (** a call of the callable numbered [f] with positional and keyword arguments *)
  call : nat -> list PyVal -> list (string * PyVal) -> Outcome PyVal
}.

(** ** The manager *)

Record AddonManager : Type := mkManager {
  addon_directory : string;
  loaded_addons : gmap string Module;
  active_addons : gmap string Module;
  addon_metadata : gmap string (gmap string PyVal)
}.

(** [AddonManager(addon_directory)] *)
Definition init (dir : string) : AddonManager :=
  mkManager dir ∅ ∅ ∅.

Definition set_loaded (f : gmap string Module -> gmap string Module)
    (s : AddonManager) : AddonManager :=
  mkManager (addon_directory s) (f (loaded_addons s)) (active_addons s)
    (addon_metadata s).

Definition set_active (f : gmap string Module -> gmap string Module)
    (s : AddonManager) : AddonManager :=
  mkManager (addon_directory s) (loaded_addons s) (f (active_addons s))
    (addon_metadata s).

Definition set_metadata
    (f : gmap string (gmap string PyVal) -> gmap string (gmap string PyVal))
    (s : AddonManager) : AddonManager :=
  mkManager (addon_directory s) (loaded_addons s) (active_addons s)
    (f (addon_metadata s)).

(** [key in d] *)
Definition contains {V : Type} (d : gmap string V) (key : string) : bool :=
  match d !! key with
  | Some _ => true
  | None => false
  end.

(** ** Events *)

Inductive Level : Type := INFO | WARNING | ERROR.

Inductive Event : Type :=
| Log (lvl : Level) (msg : string)
| Imported (name : string)
| Exists (dir file : string)
| Opened (dir file : string)
| Called (f : nat) (args : list PyVal) (kwargs : list (string * PyVal)).

(** ** The monad of the methods

    A method reads the world, changes the manager, emits events, and
    returns or raises.  A raise keeps the changes made so far, as in
    Python. *)
Definition M (A : Type) : Type :=
  World -> AddonManager -> Outcome A * AddonManager * list Event.

Definition ret {A} (a : A) : M A := fun _ s => (Ok a, s, []).

Definition raise {A} (e : Exn) : M A := fun _ s => (Raise e, s, []).

Definition bind {A B} (m : M A) (k : A -> M B) : M B :=
  fun w s =>
    match m w s with
    | (Ok a, s1, t1) =>
        match k a w s1 with
        | (r, s2, t2) => (r, s2, t1 ++ t2)
        end
    | (Raise e, s1, t1) => (Raise e, s1, t1)
    end.

(** [try: body  except C as e: handler(e)], where [catches e] tells whether
    [e] is an instance of [C]. *)
Definition try_except_if {A} (catches : Exn -> bool) (body : M A)
    (handler : Exn -> M A) : M A :=
  fun w s =>
    match body w s with
    | (Ok a, s1, t1) => (Ok a, s1, t1)
    | (Raise e, s1, t1) =>
        if catches e then
          match handler e w s1 with
          | (r, s2, t2) => (r, s2, t1 ++ t2)
          end
        else (Raise e, s1, t1)
    end.

(** [try: body  except Exception as e: handler(e)] *)
Definition try_except {A} (body : M A) (handler : Exn -> M A) : M A :=
  try_except_if (fun _ => true) body handler.

Definition get : M AddonManager := fun _ s => (Ok s, s, []).
Definition modify (f : AddonManager -> AddonManager) : M unit :=
  fun _ s => (Ok tt, f s, []).
Definition ask : M World := fun w s => (Ok w, s, []).
Definition emit (e : Event) : M unit := fun _ s => (Ok tt, s, [e]).
Definition lift {A} (o : Outcome A) : M A := fun _ s => (o, s, []).

Notation "x <- m ;; k" := (bind m (fun x => k))
  (at level 100, m at level 99, k at level 200, right associativity).
Notation "m ;;; k" := (bind m (fun _ => k))
  (at level 100, k at level 200, right associativity).

Definition logger (lvl : Level) (msg : string) : M unit := emit (Log lvl msg).

(** The result, the final manager and the events of a run. *)
Definition result {A} (r : Outcome A * AddonManager * list Event) : Outcome A :=
  r.1.1.
Definition final {A} (r : Outcome A * AddonManager * list Event) : AddonManager :=
  r.1.2.
Definition events {A} (r : Outcome A * AddonManager * list Event) : list Event :=
  r.2.

(** ** Dictionary and object primitives *)

(** [repr(key)] for a key without quotes or escapes. *)
Definition repr_str (key : string) : string := "'" +:+ key +:+ "'".

(** [d[key]] *)
Definition subscript {V} (d : gmap string V) (key : string) : M V :=
  match d !! key with
  | Some v => ret v
  | None => raise (mkExn KeyError (repr_str key))
  end.

(** [del d[key]], where [upd] writes the dictionary back into the manager. *)
Definition del_item {V} (d : gmap string V) (key : string)
    (upd : (gmap string V -> gmap string V) -> AddonManager -> AddonManager)
    : M unit :=
  match d !! key with
  | Some _ => modify (upd (delete key))
  | None => raise (mkExn KeyError (repr_str key))
  end.

(** [d.get(key, default)] *)
Definition dict_get {V} (d : gmap string V) (key : string) (default : V) : V :=
  match d !! key with
  | Some v => v
  | None => default
  end.

(** [m.name], the attribute reference. *)
Definition attribute (m : Module) (name : string) : M PyVal :=
  match py_getattr m name with
  | Some v => ret v
  | None =>
      raise (mkExn AttributeError
               ("module " +:+ repr_str (module_name m)
                +:+ " has no attribute " +:+ repr_str name))
  end.

(** A call of [v] with positional and keyword arguments. *)
Definition py_call (v : PyVal) (args : list PyVal)
    (kwargs : list (string * PyVal)) : M PyVal :=
  match v with
  | VCallable f =>
      emit (Called f args kwargs) ;;;
      w <- ask ;;
      lift (call w f args kwargs)
  | _ =>
      raise (mkExn TypeError
               ("'" +:+ type_name v +:+ "' object is not callable"))
  end.

(** The elements [for x in v] goes through, or the [TypeError] of a value
    that cannot be iterated. *)
Definition py_iter (v : PyVal) : M (list PyVal) :=
  match v with
  | VList xs => ret xs
  | VStr s =>
      ret (map (fun c => VStr (String c EmptyString)) (list_ascii_of_string s))
  | VDict kvs => ret (map (fun kv => VStr kv.1) kvs)
  | _ =>
      raise (mkExn TypeError
               ("'" +:+ type_name v +:+ "' object is not iterable"))
  end.

(** [v in d] for a dictionary with string keys: lists and dictionaries
    cannot be hashed; a value that is not a string equals no key. *)
Definition py_in {V} (v : PyVal) (d : gmap string V) : M bool :=
  match v with
  | VStr s => ret (contains d s)
  | VList _ | VDict _ =>
      raise (mkExn TypeError ("unhashable type: '" +:+ type_name v +:+ "'"))
  | _ => ret false
  end.

(** [for x in xs: body(x)] *)
Fixpoint for_each {A} (xs : list A) (body : A -> M unit) : M unit :=
  match xs with
  | [] => ret tt
  | x :: rest => body x ;;; for_each rest body
  end.

(** ** The methods of [AddonManager] *)

Definition _load_addon_metadata (addon_name : string) (addon_module : Module)
    : M (gmap string PyVal) :=
  let metadata : gmap string PyVal :=
    <["dependencies" := getattr_default addon_module "__dependencies__" (VList [])]>
    (<["description" :=
         getattr_default addon_module "__doc__" (VStr "No description provided.")]>
    (<["author" := getattr_default addon_module "__author__" (VStr "Unknown")]>
    (<["version" := getattr_default addon_module "__version__" (VStr "Unknown")]>
    (<["name" := VStr addon_name]> ∅)))) in
  s <- get ;;
  w <- ask ;;
  let dir := addon_directory s in
  let metadata_file := addon_name +:+ "_metadata.json" in
  emit (Exists dir metadata_file) ;;;
  if path_exists w dir metadata_file then
    try_except_if is_JSONDecodeError
      (emit (Opened dir metadata_file) ;;;
       file_metadata <- lift (load_json w dir metadata_file) ;;
       ret (file_metadata ∪ metadata))
      (fun _ =>
         logger WARNING
           ("Invalid metadata file for addon '" +:+ addon_name +:+ "'.") ;;;
         ret metadata)
  else ret metadata.

(** The entries pushed on and popped off [sys.path] around the import do not
    touch the registry and are left out.  [getattr] is only reached when
    [hasattr] holds, so its default below is never used. *)
Definition load_addon (addon_name : string) : M bool :=
  s <- get ;;
  if contains (loaded_addons s) addon_name then
    logger WARNING ("Addon '" +:+ addon_name +:+ "' is already loaded.") ;;;
    ret false
  else
    try_except
      (emit (Imported addon_name) ;;;
       w <- ask ;;
       addon_module <- lift (import_module w addon_name) ;;
       (if negb (hasattr addon_module "initialize")
           || negb (callable (getattr_default addon_module "initialize" VNone))
        then raise (mkExn AttributeError
                      "Addon must have an 'initialize' function.")
        else ret tt) ;;;
       (if negb (hasattr addon_module "shutdown")
           || negb (callable (getattr_default addon_module "shutdown" VNone))
        then raise (mkExn AttributeError
                      "Addon must have a 'shutdown' function.")
        else ret tt) ;;;
       metadata <- _load_addon_metadata addon_name addon_module ;;
       modify (set_metadata (insert addon_name metadata)) ;;;
       modify (set_loaded (insert addon_name addon_module)) ;;;
       logger INFO ("Successfully loaded addon: " +:+ addon_name) ;;;
       ret true)
      (fun e =>
         logger ERROR
           ("Failed to load addon '" +:+ addon_name +:+ "': " +:+ exn_msg e) ;;;
         ret false).

(** The body of the loop of [_check_dependencies]. *)
Definition check_dependency (dep : PyVal) : M unit :=
  s <- get ;;
  found <- py_in dep (active_addons s) ;;
  if negb found then
    raise (mkExn ImportError
             ("Dependency '" +:+ py_format dep
              +:+ "' is not active. Please activate it first."))
  else ret tt.

Definition _check_dependencies (addon_name : string) : M unit :=
  s <- get ;;
  metadata <- subscript (addon_metadata s) addon_name ;;
  let dependencies := dict_get metadata "dependencies" (VList []) in
  deps <- py_iter dependencies ;;
  for_each deps check_dependency.

Definition activate_addon (addon_name : string) : M bool :=
  s <- get ;;
  if negb (contains (loaded_addons s) addon_name) then
    logger ERROR
      ("Cannot activate '" +:+ addon_name +:+ "'. Addon is not loaded.") ;;;
    ret false
  else if contains (active_addons s) addon_name then
    logger WARNING ("Addon '" +:+ addon_name +:+ "' is already active.") ;;;
    ret false
  else
    addon_module <- subscript (loaded_addons s) addon_name ;;
    try_except
      (_check_dependencies addon_name ;;;
       initialize <- attribute addon_module "initialize" ;;
       py_call initialize [] [] ;;;
       modify (set_active (insert addon_name addon_module)) ;;;
       logger INFO ("Activated addon: " +:+ addon_name) ;;;
       ret true)
      (fun e =>
         logger ERROR
           ("Failed to activate addon '" +:+ addon_name +:+ "': "
            +:+ exn_msg e) ;;;
         ret false).

Definition deactivate_addon (addon_name : string) : M bool :=
  s <- get ;;
  if negb (contains (active_addons s) addon_name) then
    logger WARNING ("Addon '" +:+ addon_name +:+ "' is not active.") ;;;
    ret false
  else
    addon_module <- subscript (active_addons s) addon_name ;;
    try_except
      (shutdown <- attribute addon_module "shutdown" ;;
       py_call shutdown [] [] ;;;
       s <- get ;;
       del_item (active_addons s) addon_name set_active ;;;
       logger INFO ("Deactivated addon: " +:+ addon_name) ;;;
       ret true)
      (fun e =>
         logger ERROR
           ("Failed to deactivate addon '" +:+ addon_name +:+ "': "
            +:+ exn_msg e) ;;;
         ret false).

Definition reload_addon (addon_name : string) : M bool :=
  s <- get ;;
  if negb (contains (loaded_addons s) addon_name) then
    logger ERROR
      ("Cannot reload '" +:+ addon_name +:+ "'. Addon is not loaded.") ;;;
    ret false
  else
    let was_active := contains (active_addons s) addon_name in
    (if was_active then deactivate_addon addon_name ;;; ret tt else ret tt) ;;;
    s <- get ;;
    del_item (loaded_addons s) addon_name set_loaded ;;;
    s <- get ;;
    del_item (addon_metadata s) addon_name set_metadata ;;;
    reloaded <- load_addon addon_name ;;
    if reloaded then
      if was_active then activate_addon addon_name else ret true
    else ret false.

(** The two listings give the keys of a dictionary; their order is that of
    the map, not the order of insertion. *)
Definition get_active_addons : M (list string) :=
  s <- get ;;
  ret (map fst (map_to_list (active_addons s))).

Definition get_loaded_addons : M (list string) :=
  s <- get ;;
  ret (map fst (map_to_list (loaded_addons s))).

Definition execute_addon_function (addon_name function_name : string)
    (args : list PyVal) (kwargs : list (string * PyVal)) : M PyVal :=
  s <- get ;;
  if negb (contains (active_addons s) addon_name) then
    raise (mkExn ValueError ("Addon '" +:+ addon_name +:+ "' is not active."))
  else
    addon_module <- subscript (active_addons s) addon_name ;;
    if negb (hasattr addon_module function_name) then
      raise (mkExn AttributeError
               ("Function '" +:+ function_name +:+ "' not found in addon '"
                +:+ addon_name +:+ "'."))
    else
      function <- attribute addon_module function_name ;;
      py_call function args kwargs.

(** ** Sequences of operations *)

Inductive Op : Type :=
| Load (addon_name : string)
| Activate (addon_name : string)
| Deactivate (addon_name : string)
| Reload (addon_name : string).

Definition exec (op : Op) : M bool :=
  match op with
  | Load n => load_addon n
  | Activate n => activate_addon n
  | Deactivate n => deactivate_addon n
  | Reload n => reload_addon n
  end.

(** The manager after a sequence of operations, each one in the world of
    its time. *)
Fixpoint run (ops : list (Op * World)) (s : AddonManager) : AddonManager :=
  match ops with
  | [] => s
  | (op, w) :: rest => run rest (final (exec op w s))
  end.

(** ** The vocabulary of the design document *)

(** An addon is loaded when [get_loaded_addons] lists it, active when
    [get_active_addons] lists it. *)
Definition is_loaded (s : AddonManager) (id : string) : bool :=
  contains (loaded_addons s) id.

Definition is_active (s : AddonManager) (id : string) : bool :=
  contains (active_addons s) id.

Definition has_metadata (s : AddonManager) (id : string) : bool :=
  contains (addon_metadata s) id.

(** No trace of [id] in the registry. *)
Definition unregistered (s : AddonManager) (id : string) : Prop :=
  is_loaded s id = false /\ is_active s id = false /\ has_metadata s id = false.

(** The registry is consistent: the active addons are loaded, and the
    loaded addons have metadata. *)
Definition consistent (s : AddonManager) : Prop :=
  (forall id, is_active s id = true -> is_loaded s id = true) /\
  (forall id, is_loaded s id = true -> has_metadata s id = true).

(** The unit has the capability [name]: an attribute that can be called. *)
Definition has_capability (m : Module) (name : string) : bool :=
  match py_getattr m name with
  | Some v => callable v
  | None => false
  end.

(** What [m.name()] does in the world [w]. *)
Definition capability_outcome (w : World) (m : Module) (name : string)
    : Outcome PyVal :=
  match py_getattr m name with
  | Some (VCallable f) => call w f [] []
  | Some v =>
      Raise (mkExn TypeError ("'" +:+ type_name v +:+ "' object is not callable"))
  | None =>
      Raise (mkExn AttributeError
               ("module " +:+ repr_str (module_name m)
                +:+ " has no attribute " +:+ repr_str name))
  end.

(** The metadata that a unit declares by itself: the dictionary that
    [_load_addon_metadata] builds before it looks for a metadata file. *)
Definition declared_metadata (addon_name : string) (addon_module : Module)
    : gmap string PyVal :=
  <["dependencies" := getattr_default addon_module "__dependencies__" (VList [])]>
  (<["description" :=
       getattr_default addon_module "__doc__" (VStr "No description provided.")]>
  (<["author" := getattr_default addon_module "__author__" (VStr "Unknown")]>
  (<["version" := getattr_default addon_module "__version__" (VStr "Unknown")]>
  (<["name" := VStr addon_name]> ∅)))).

(** The addon [id] declares the identifiers [deps], in this order. *)
Definition declares (s : AddonManager) (id : string) (deps : list string) : Prop :=
  exists md,
    addon_metadata s !! id = Some md /\
    dict_get md "dependencies" (VList []) = VList (VStr <$> deps).

(** The first of [deps] that is not active. *)
Definition first_inactive (s : AddonManager) (deps : list string) : option string :=
  List.find (fun d => negb (is_active s d)) deps.

(** The message of the [ImportError] of [_check_dependencies]. *)
Definition missing_dependency (dep : string) : Exn :=
  mkExn ImportError
    ("Dependency '" +:+ dep +:+ "' is not active. Please activate it first.").

(** The metadata [md] of the addon [id] lists [id] among its dependencies. *)
Definition self_dependent (id : string) (md : gmap string PyVal) : Prop :=
  exists deps, dict_get md "dependencies" (VList []) = VList deps /\ VStr id ∈ deps.

(** In the world [w] the addon [id] goes on declaring itself: the metadata
    that a load of [id] resolves lists [id] among the dependencies. *)
Definition keeps_self_dependency (id : string) (w : World) : Prop :=
  forall s m md,
    import_module w id = Ok m ->
    result (_load_addon_metadata id m w s) = Ok md ->
    self_dependent id md.

(** As long as [id] is not active and its metadata lists it among its own
    dependencies, no operation makes it active. *)
Definition self_blocked (id : string) (s : AddonManager) : Prop :=
  is_active s id = false /\
  forall md, addon_metadata s !! id = Some md -> self_dependent id md.

(** Along the sequence [ops] from [s], every reload of an active addon
    finds its [shutdown] working. *)
Fixpoint shutdowns_succeed (ops : list (Op * World)) (s : AddonManager) : Prop :=
  match ops with
  | [] => True
  | (op, w) :: rest =>
      match op with
      | Reload n =>
          is_active s n = true -> result (deactivate_addon n w s) = Ok true
      | _ => True
      end /\
      shutdowns_succeed rest (final (exec op w s))
  end.

Arguments _load_addon_metadata : simpl never.
Arguments _check_dependencies : simpl never.
Arguments load_addon : simpl never.
Arguments activate_addon : simpl never.
Arguments deactivate_addon : simpl never.
Arguments reload_addon : simpl never.

(** ** Units and worlds used as examples *)

(** A unit with both lifecycle functions and a version, without docstring
    and without dependencies. *)
Definition unit_A : Module :=
  mkModule "A" None
    (<["initialize" := VCallable 1]>
     (<["shutdown" := VCallable 2]>
      (<["__version__" := VStr "1.0.0"]> ∅))).

(** A unit that declares the dependency [A]. *)
Definition unit_B : Module :=
  mkModule "B" (Some "Depends on A.")
    (<["initialize" := VCallable 3]>
     (<["shutdown" := VCallable 4]>
      (<["__dependencies__" := VList [VStr "A"]]> ∅))).

(** A unit that lists itself after [B] among its dependencies. *)
Definition unit_S : Module :=
  mkModule "S" None
    (<["initialize" := VCallable 5]>
     (<["shutdown" := VCallable 6]>
      (<["__dependencies__" := VList [VStr "B"; VStr "S"]]> ∅))).

(** A unit without [shutdown]. *)
Definition unit_N : Module :=
  mkModule "N" None (<["initialize" := VCallable 7]> ∅).

Definition units : gmap string Module :=
  <["A" := unit_A]> (<["B" := unit_B]> (<["S" := unit_S]> (<["N" := unit_N]> ∅))).

Definition import_from (table : gmap string Module) (name : string)
    : Outcome Module :=
  match table !! name with
  | Some m => Ok m
  | None => Raise (mkExn ImportError ("No module named " +:+ repr_str name))
  end.

(** Every unit can be imported, there are no metadata files, and every call
    returns [None]. *)
Definition calm : World :=
  mkWorld (import_from units)
    (fun _ _ => false)
    (fun _ _ => Raise (mkExn (OtherError "FileNotFoundError") "No such file or directory"))
    (fun _ _ _ => Ok VNone).

(** Every unit can be imported, but every call into a unit raises, and the
    metadata files hold the JSON array [[1]], which [dict.update] rejects. *)
Definition stormy : World :=
  mkWorld (import_from units)
    (fun _ _ => true)
    (fun _ _ =>
       Raise (mkExn TypeError
                "cannot convert dictionary update sequence element #0 to a sequence"))
    (fun _ _ _ => Raise (mkExn (OtherError "RuntimeError") "boom")).

(** As [calm], but the metadata files hold malformed JSON. *)
Definition garbled : World :=
  mkWorld (import_from units)
    (fun _ _ => true)
    (fun _ _ =>
       Raise (mkExn JSONDecodeError "Expecting value: line 1 column 1 (char 0)"))
    (fun _ _ _ => Ok VNone).

(** As [calm], but the metadata files hold the object
    [{"version": "2.0", "dependencies": ["A"]}]. *)
Definition documented : World :=
  mkWorld (import_from units)
    (fun _ _ => true)
    (fun _ _ =>
       Ok (<["version" := VStr "2.0"]>
           (<["dependencies" := VList [VStr "A"]]> ∅)))
    (fun _ _ _ => Ok VNone).

(** A fresh manager after [load_addon("A")], and after [activate_addon("A")]
    as well. *)
Definition loaded_A : AddonManager := run [(Load "A", calm)] (init "addons").
Definition active_A : AddonManager :=
  run [(Load "A", calm); (Activate "A", calm)] (init "addons").

(** [A] and [B] loaded, with [A] inactive and with [A] active. *)
Definition loaded_AB : AddonManager :=
  run [(Load "A", calm); (Load "B", calm)] (init "addons").
Definition ready_B : AddonManager :=
  run [(Load "A", calm); (Activate "A", calm); (Load "B", calm)] (init "addons").

(** [S] loaded. *)
Definition loaded_S : AddonManager := run [(Load "S", calm)] (init "addons").

(** ** Discovery and introspection *)

(** [s.endswith(suffix)] *)
Definition endswith (s suffix : string) : bool :=
  (String.length suffix <=? String.length s)%nat &&
  String.eqb
    (substring (String.length s - String.length suffix) (String.length suffix) s)
    suffix.

(** [s[:-n]] for a positive [n]: [s] without its last [n] characters, the
    empty string when [s] is shorter. *)
Definition drop_last (n : nat) (s : string) : string :=
  substring 0 (String.length s - n) s.

(** [os.listdir(dir)]: the names in the directory, or the exception of a
    directory that cannot be listed. *)
Record FileSystem : Type := mkFileSystem {
  listdir : string -> Outcome (list string)
}.

Definition discover_addons (fs : FileSystem) : M (list string) :=
  s <- get ;;
  listing <- lift (listdir fs (addon_directory s)) ;;
  let addon_files :=
    map (drop_last 3)
      (List.filter
         (fun f => endswith f ".py" && negb (String.eqb f "__init__.py"))
         listing) in
  logger INFO
    ("Discovered " +:+ pretty (length addon_files) +:+ " potential addons.") ;;;
  ret addon_files.

(** What [inspect.isfunction] and [inspect.isclass] say of a member. *)
Inductive MemberKind : Type := IsFunction | IsClass | IsOther.

(** [inspect.getmembers(module, lambda x: not x.__name__.startswith('_'))],
    the whole call: the members that pass the predicate, by name, each with
    its kind; or the exception raised on the way, as the predicate raises
    [AttributeError] on a member that has no [__name__]. *)
Record Inspector : Type := mkInspector {
  getmembers : Module -> Outcome (list (string * MemberKind))
}.

Definition is_function (k : MemberKind) : bool :=
  match k with IsFunction => true | _ => false end.

Definition is_class (k : MemberKind) : bool :=
  match k with IsClass => true | _ => false end.

Definition get_addon_info (insp : Inspector) (addon_name : string)
    : M (gmap string PyVal) :=
  s <- get ;;
  if negb (contains (loaded_addons s) addon_name) then
    raise (mkExn ValueError ("Addon '" +:+ addon_name +:+ "' is not loaded."))
  else
    addon_module <- subscript (loaded_addons s) addon_name ;;
    let metadata := dict_get (addon_metadata s) addon_name ∅ in
    let info : gmap string PyVal :=
      <["dependencies" := dict_get metadata "dependencies" (VList [])]>
      (<["status" :=
           VStr (if contains (active_addons s) addon_name
                 then "Active" else "Inactive")]>
      (<["description" :=
           dict_get metadata "description" (VStr "No description provided.")]>
      (<["author" := dict_get metadata "author" (VStr "Unknown")]>
      (<["version" := dict_get metadata "version" (VStr "Unknown")]>
      (<["name" := VStr addon_name]> ∅))))) in
    public_items <- lift (getmembers insp addon_module) ;;
    let functions :=
      map (fun item => VStr item.1)
        (List.filter (fun item => is_function item.2) public_items) in
    let classes :=
      map (fun item => VStr item.1)
        (List.filter (fun item => is_class item.2) public_items) in
    ret (<["classes" := VList classes]> (<["functions" := VList functions]> info)).

(** Every unit in the registry has a callable [initialize] and a callable
    [shutdown]. *)
Definition valid_units (s : AddonManager) : Prop :=
  forall id m,
    loaded_addons s !! id = Some m \/ active_addons s !! id = Some m ->
    has_capability m "initialize" = true /\ has_capability m "shutdown" = true.

(** The addon an operation is about. *)
Definition target (op : Op) : string :=
  match op with Load n | Activate n | Deactivate n | Reload n => n end.

(** The metadata file of [addon_name] does not stand in the way of a load:
    there is none, or opening, parsing and merging it raises nothing, or it
    raises [json.JSONDecodeError].  The document need not be a JSON object:
    whatever [dict.update] accepts is merged. *)
Definition metadata_usable (w : World) (dir addon_name : string) : bool :=
  negb (path_exists w dir (addon_name +:+ "_metadata.json")) ||
  match load_json w dir (addon_name +:+ "_metadata.json") with
  | Ok _ => true
  | Raise e => is_JSONDecodeError e
  end.

Arguments discover_addons : simpl never.
Arguments get_addon_info : simpl never.

(** The manager that the sequence load, activate, reload leaves when the
    [shutdown] of [A] raises and its metadata file has become unusable. *)
Definition stranded_A : AddonManager :=
  run [(Load "A", calm); (Activate "A", calm); (Reload "A", stormy)]
    (init "addons").

(** [B] active on top of the active [A]. *)
Definition active_AB : AddonManager :=
  run [(Load "A", calm); (Activate "A", calm); (Load "B", calm);
       (Activate "B", calm)] (init "addons").

(** As [calm], but the [initialize] of [A] raises. *)
Definition fragile : World :=
  mkWorld (import_from units)
    (fun _ _ => false)
    (fun _ _ => Raise (mkExn (OtherError "FileNotFoundError") "No such file or directory"))
    (fun f _ _ =>
       if Nat.eqb f 1 then Raise (mkExn (OtherError "RuntimeError") "boom")
       else Ok VNone).

(** A directory with two units, a package file, a data file and a file
    whose name is the bare extension. *)
Definition some_files : FileSystem :=
  mkFileSystem
    (fun _ => Ok ["A.py"; "__init__.py"; "notes.txt"; "B.py"; ".py"]).

(** * Properties *)

(** ** Unfolding the monad *)

Ltac unfold_m :=
  unfold logger, try_except, try_except_if, subscript, del_item, attribute,
    py_call, bind, ret, raise, get, modify, ask, emit, lift in *.

Ltac crunch := repeat (case_match; simplify_eq/=).

Lemma contains_true {V} (d : gmap string V) k :
  contains d k = true <-> is_Some (d !! k).
Proof.
  unfold contains. destruct (d !! k); split; intros H; try done; eauto.
Qed.

Lemma contains_false {V} (d : gmap string V) k :
  contains d k = false <-> d !! k = None.
Proof. unfold contains. by destruct (d !! k). Qed.

(** ** The listings *)

Lemma keys_listed {V} (d : gmap string V) (id : string) :
  id ∈ map fst (map_to_list d) <-> contains d id = true.
Proof.
  rewrite contains_true. split.
  - intros [[k v] [-> Hkv]]%list_elem_of_fmap.
    apply elem_of_map_to_list in Hkv. simpl. eauto.
  - intros [v Hv]. apply list_elem_of_fmap. exists (id, v).
    split; [done|]. by apply elem_of_map_to_list.
Qed.

Lemma get_active_addons_lists w s id :
  exists l, get_active_addons w s = (Ok l, s, []) /\
            (id ∈ l <-> is_active s id = true).
Proof. eexists. split; [reflexivity|]. apply keys_listed. Qed.

Lemma get_loaded_addons_lists w s id :
  exists l, get_loaded_addons w s = (Ok l, s, []) /\
            (id ∈ l <-> is_loaded s id = true).
Proof. eexists. split; [reflexivity|]. apply keys_listed. Qed.

(** ** The dependency check *)

Lemma check_dependency_frame w s (dep : PyVal) :
  exists r, check_dependency dep w s = (r, s, []).
Proof. unfold check_dependency. destruct dep; unfold_m; simpl; crunch; eauto. Qed.

Lemma check_dependency_string w s (d : string) :
  check_dependency (VStr d) w s =
  if is_active s d then (Ok tt, s, []) else (Raise (missing_dependency d), s, []).
Proof.
  unfold check_dependency. unfold_m. simpl. unfold is_active.
  by destruct (contains (active_addons s) d).
Qed.

Lemma check_loop_frame w s (deps : list PyVal) :
  exists r, for_each deps check_dependency w s = (r, s, []).
Proof.
  induction deps as [|dep deps [r IH]]; [by eexists|].
  cbn [for_each]. unfold bind.
  destruct (check_dependency_frame w s dep) as [r1 ->]. rewrite IH.
  destruct r1; eauto.
Qed.

Lemma check_loop_strings w s (deps : list string) :
  for_each (VStr <$> deps) check_dependency w s =
  match first_inactive s deps with
  | Some d => (Raise (missing_dependency d), s, [])
  | None => (Ok tt, s, [])
  end.
Proof.
  induction deps as [|d deps IH]; [done|].
  cbn [for_each fmap list_fmap]. unfold bind. rewrite check_dependency_string.
  unfold first_inactive in *. cbn [find].
  destruct (is_active s d); cbn [negb]; [|done].
  change (list_fmap string PyVal VStr deps) with (VStr <$> deps).
  rewrite IH. by destruct (find _ deps).
Qed.

Lemma check_loop_self w s (deps : list PyVal) (id : string) :
  VStr id ∈ deps -> is_active s id = false ->
  exists e, for_each deps check_dependency w s = (Raise e, s, []).
Proof.
  intros Hin Hid. induction deps as [|dep deps IH]; [by apply elem_of_nil in Hin|].
  cbn [for_each]. unfold bind.
  apply elem_of_cons in Hin as [<-|Hin].
  - rewrite check_dependency_string, Hid. eauto.
  - destruct (IH Hin) as [e He].
    destruct (check_dependency_frame w s dep) as [[] ->]; [rewrite He|]; eauto.
Qed.

Lemma check_dependencies_frame w s id :
  exists r, _check_dependencies id w s = (r, s, []).
Proof.
  unfold _check_dependencies, bind, get, subscript.
  destruct (addon_metadata s !! id) as [md|]; [|unfold raise; eauto].
  unfold ret at 1.
  destruct (dict_get md "dependencies" (VList [])) eqn:E; unfold py_iter, raise, ret; eauto;
    match goal with |- context [for_each ?l ?b w s] =>
      destruct (check_loop_frame w s l) as [r ->] end; eauto.
Qed.

Lemma check_dependencies_declared w s id deps :
  declares s id deps ->
  _check_dependencies id w s =
  match first_inactive s deps with
  | Some d => (Raise (missing_dependency d), s, [])
  | None => (Ok tt, s, [])
  end.
Proof.
  intros (md & Hmd & Hdeps).
  unfold _check_dependencies, bind, get, subscript. rewrite Hmd.
  unfold ret at 1. rewrite Hdeps. unfold py_iter, ret at 1.
  rewrite check_loop_strings. by destruct (first_inactive s deps).
Qed.



Lemma check_dependencies_self w s id md :
  addon_metadata s !! id = Some md -> self_dependent id md ->
  is_active s id = false ->
  exists e, _check_dependencies id w s = (Raise e, s, []).
Proof.
  intros Hmd (deps & Hdeps & Hin) Hid.
  unfold _check_dependencies, bind, get, subscript. rewrite Hmd.
  unfold ret at 1. rewrite Hdeps. unfold py_iter, ret at 1.
  destruct (check_loop_self w s deps id Hin Hid) as [e ->]. eauto.
Qed.

(** ** Metadata resolution *)

Lemma load_addon_metadata_frame n m w s :
  final (_load_addon_metadata n m w s) = s.
Proof.
  unfold _load_addon_metadata, final. unfold_m. crunch; done.
Qed.

(** ** One operation at a time *)

Lemma capability_check m name :
  negb (hasattr m name) || negb (callable (getattr_default m name VNone))
  = negb (has_capability m name).
Proof.
  unfold hasattr, getattr_default, has_capability.
  destruct (py_getattr m name) as [v|]; [by destruct v|done].
Qed.

Lemma load_addon_summary w s n :
  (exists m md,
      result (load_addon n w s) = Ok true /\
      final (load_addon n w s) =
        set_loaded (insert n m) (set_metadata (insert n md) s) /\
      loaded_addons s !! n = None /\
      import_module w n = Ok m /\
      has_capability m "initialize" = true /\
      has_capability m "shutdown" = true /\
      result (_load_addon_metadata n m w s) = Ok md)
  \/ (result (load_addon n w s) = Ok false /\ final (load_addon n w s) = s).
Proof.
  unfold load_addon, result, final. unfold_m.
  destruct (contains (loaded_addons s) n) eqn:Hl; [by right|].
  apply contains_false in Hl.
  destruct (import_module w n) as [m|e] eqn:Hi; [|by right].
  rewrite !capability_check.
  destruct (has_capability m "initialize") eqn:H1; [|by right].
  destruct (has_capability m "shutdown") eqn:H2; [|by right].
  cbn [negb].
  pose proof (load_addon_metadata_frame n m w s) as Hf. unfold final in Hf.
  destruct (_load_addon_metadata n m w s) as [[[md|e] s'] t] eqn:Hm;
    simpl in Hf; subst s'; [|by right].
  left. exists m, md. by rewrite Hm.
Qed.

Lemma activate_addon_summary w s n :
  (exists m v,
      result (activate_addon n w s) = Ok true /\
      final (activate_addon n w s) = set_active (insert n m) s /\
      loaded_addons s !! n = Some m /\
      active_addons s !! n = None /\
      _check_dependencies n w s = (Ok tt, s, []) /\
      capability_outcome w m "initialize" = Ok v)
  \/ (result (activate_addon n w s) = Ok false /\ final (activate_addon n w s) = s).
Proof.
  unfold activate_addon, result, final, capability_outcome. unfold_m.
  destruct (contains (loaded_addons s) n) eqn:Hl; simpl; [|by right].
  destruct (contains (active_addons s) n) eqn:Ha; simpl; [by right|].
  apply contains_false in Ha. unfold contains in Hl.
  destruct (loaded_addons s !! n) as [m|] eqn:Hm; [|done].
  destruct (check_dependencies_frame w s n) as [r Hr]. rewrite Hr.
  destruct r as [[]|e]; simpl; [|by right].
  destruct (py_getattr m "initialize") as [[| | | | | |f]|] eqn:Hg; simpl;
    try by right.
  destruct (call w f [] []) as [v|e] eqn:Hc; simpl; [|by right].
  left. exists m, v. by rewrite Hg.
Qed.

Lemma deactivate_addon_summary w s n :
  (exists m v,
      result (deactivate_addon n w s) = Ok true /\
      final (deactivate_addon n w s) = set_active (delete n) s /\
      active_addons s !! n = Some m /\
      capability_outcome w m "shutdown" = Ok v)
  \/ (result (deactivate_addon n w s) = Ok false /\ final (deactivate_addon n w s) = s).
Proof.
  unfold deactivate_addon, result, final, capability_outcome. unfold_m.
  destruct (contains (active_addons s) n) eqn:Ha; simpl; [|by right].
  unfold contains in Ha.
  destruct (active_addons s !! n) as [m|] eqn:Hm; [|done].
  destruct (py_getattr m "shutdown") as [[| | | | | |f]|] eqn:Hg; simpl;
    try by right.
  destruct (call w f [] []) as [v|e] eqn:Hc; simpl; [|by right].
  rewrite Hm. simpl.
  left. exists m, v. by rewrite Hg.
Qed.

(** ** Reload, step by step *)

Lemma load_addon_returns w s n :
  result (load_addon n w s) = Ok true \/ result (load_addon n w s) = Ok false.
Proof. destruct (load_addon_summary w s n) as [(?&?&?&?)|[? ?]]; eauto. Qed.

Lemma deactivate_addon_loaded w s n :
  loaded_addons (final (deactivate_addon n w s)) = loaded_addons s /\
  addon_metadata (final (deactivate_addon n w s)) = addon_metadata s /\
  addon_directory (final (deactivate_addon n w s)) = addon_directory s.
Proof.
  destruct (deactivate_addon_summary w s n) as [(?&?&?&->&?)|[? ->]]; done.
Qed.

Lemma reload_addon_not_loaded w s n :
  is_loaded s n = false ->
  reload_addon n w s =
  (Ok false, s,
   [Log ERROR ("Cannot reload '" +:+ n +:+ "'. Addon is not loaded.")]).
Proof.
  intros H. unfold reload_addon. unfold_m. unfold is_loaded in H. by rewrite H.
Qed.

Lemma reload_addon_steps w s n :
  is_loaded s n = true -> has_metadata s n = true ->
  let s1 := if is_active s n then final (deactivate_addon n w s) else s in
  let s3 := set_metadata (delete n) (set_loaded (delete n) s1) in
  let s4 := final (load_addon n w s3) in
  result (reload_addon n w s) =
    match result (load_addon n w s3) with
    | Ok true => if is_active s n then result (activate_addon n w s4) else Ok true
    | _ => Ok false
    end /\
  final (reload_addon n w s) =
    match result (load_addon n w s3) with
    | Ok true => if is_active s n then final (activate_addon n w s4) else s4
    | _ => s4
    end.
Proof.
  intros Hl Hmd. unfold is_loaded, has_metadata, is_active in *.
  cbv zeta.
  destruct (deactivate_addon_loaded w s n) as (Hdl & Hdm & _).
  unfold reload_addon. unfold_m. rewrite Hl. cbn [negb].
  unfold result, final in *.
  destruct (contains (active_addons s) n) eqn:Ha.
  - destruct (deactivate_addon n w s) as [[r1 s1] t1] eqn:Hd. simpl in Hdl, Hdm.
    assert (r1 = Ok true \/ r1 = Ok false) as Hr1.
    { destruct (deactivate_addon_summary w s n) as [(?&?&H&_)|[H _]];
        unfold result in H; rewrite Hd in H; simpl in H; eauto. }
    unfold contains in Hl, Hmd. rewrite <- Hdl in Hl. rewrite <- Hdm in Hmd.
    destruct (loaded_addons s1 !! n) eqn:E1; [|done].
    destruct (addon_metadata s1 !! n) eqn:E2; [|done].
    destruct (load_addon_returns w
                (set_metadata (delete n) (set_loaded (delete n) s1)) n) as [H|H];
      unfold result in H;
      destruct (load_addon n w _) as [[r4 s4] t4] eqn:E4; simpl in H; subst r4;
      try (destruct (activate_addon n w s4) as [[r5 s5] t5] eqn:E5);
      destruct Hr1 as [-> | ->]; simpl; rewrite E1; simpl; rewrite E2; simpl;
      rewrite E4; simpl; rewrite ?E5; done.
  - unfold contains in Hl, Hmd.
    destruct (loaded_addons s !! n) eqn:E1; [|done].
    destruct (addon_metadata s !! n) eqn:E2; [|done].
    destruct (load_addon_returns w
                (set_metadata (delete n) (set_loaded (delete n) s)) n) as [H|H];
      unfold result in H;
      destruct (load_addon n w _) as [[r4 s4] t4] eqn:E4; simpl in H; subst r4;
      simpl; rewrite ?E1; simpl; rewrite ?E2; simpl; rewrite E4; done.
Qed.

(** ** Loading *)

(** The guard of [load_addon] reads [loaded_addons] and nothing else: for an
    identifier that has a loaded unit, active or not, the call returns
    [False] and leaves the loaded set, the active set and the metadata as
    they were; its only effect is one warning in the log: the unit is not
    imported again and no metadata file is looked up. *)
Lemma load_addon_already_loaded (w : World) (s : AddonManager) (id : string) :
  is_loaded s id = true ->
  result (load_addon id w s) = Ok false /\
  final (load_addon id w s) = s /\
  events (load_addon id w s) =
    [Log WARNING ("Addon '" +:+ id +:+ "' is already loaded.")].
Proof.
  intros Hl.
  unfold is_loaded in Hl. unfold load_addon, result, final, events. unfold_m.
  by rewrite Hl.
Qed.

Lemma load_addon_already_loaded_witness :
  is_loaded active_A "A" = true /\
  result (load_addon "A" calm active_A) = Ok false /\
  final (load_addon "A" calm active_A) = active_A.
Proof.
  split; [reflexivity|].
  destruct (load_addon_already_loaded calm active_A "A") as (H1 & H2 & _).
  - reflexivity.
  - split; assumption.
Defined.

(** C6: a load of an Active identifier can return [True] and change the
    registry.  The sequence load, activate, reload from the empty manager,
    where during the reload [shutdown] raises and the metadata file cannot
    be merged, leaves [A] in [active_addons] without a loaded unit.  The
    guard of [load_addon] reads [loaded_addons] alone, so a further load of
    the Active [A] is not refused: it imports the unit again, looks for the
    metadata file again, registers a loaded unit and a metadata record, and
    returns [True]. *)
Theorem C6_load_of_active_addon_succeeds :
  stranded_A =
    run [(Load "A", calm); (Activate "A", calm); (Reload "A", stormy)]
      (init "addons") /\
  is_active stranded_A "A" = true /\
  is_loaded stranded_A "A" = false /\
  result (load_addon "A" calm stranded_A) = Ok true /\
  events (load_addon "A" calm stranded_A) =
    [Imported "A"; Exists "addons" "A_metadata.json";
     Log INFO "Successfully loaded addon: A"] /\
  is_loaded (final (load_addon "A" calm stranded_A)) "A" = true /\
  has_metadata (final (load_addon "A" calm stranded_A)) "A" = true /\
  final (load_addon "A" calm stranded_A) <> stranded_A.
Proof.
  assert (is_loaded (final (load_addon "A" calm stranded_A)) "A" = true)
    as Hl by (vm_compute; reflexivity).
  assert (is_loaded stranded_A "A" = false) as Hs by (vm_compute; reflexivity).
  repeat split; try (vm_compute; reflexivity).
  intros H. rewrite H in Hl. congruence.
Qed.



(** ** Activation and deactivation *)



Lemma activate_addon_check_fails w s id m e :
  loaded_addons s !! id = Some m ->
  active_addons s !! id = None ->
  _check_dependencies id w s = (Raise e, s, []) ->
  activate_addon id w s =
  (Ok false, s,
   [Log ERROR ("Failed to activate addon '" +:+ id +:+ "': " +:+ exn_msg e)]).
Proof.
  intros Hm Ha Hc. unfold activate_addon. unfold_m. unfold contains.
  rewrite Hm, Ha. simpl. by rewrite Hc.
Qed.

Lemma activate_addon_check_passes w s id m :
  loaded_addons s !! id = Some m ->
  active_addons s !! id = None ->
  _check_dependencies id w s = (Ok tt, s, []) ->
  result (activate_addon id w s) =
    match capability_outcome w m "initialize" with
    | Ok _ => Ok true
    | Raise _ => Ok false
    end /\
  final (activate_addon id w s) =
    match capability_outcome w m "initialize" with
    | Ok _ => set_active (insert id m) s
    | Raise _ => s
    end.
Proof.
  intros Hm Ha Hc.
  unfold activate_addon, capability_outcome, result, final. unfold_m.
  unfold contains. rewrite Hm, Ha. simpl. rewrite Hc. simpl.
  destruct (py_getattr m "initialize") as [[| | | | | |f]|]; simpl; try done.
  by destruct (call w f [] []).
Qed.

Lemma first_inactive_None s deps :
  first_inactive s deps = None <-> forall d, d ∈ deps -> is_active s d = true.
Proof.
  unfold first_inactive. induction deps as [|x deps IH]; simpl.
  - split; [|done]. intros _ d Hd. by apply elem_of_nil in Hd.
  - destruct (is_active s x) eqn:Hx; simpl.
    + rewrite IH. split.
      * intros H d [->|Hd]%elem_of_cons; auto.
      * intros H d Hd. apply H. apply elem_of_cons. auto.
    + split; [done|]. intros H. rewrite H in Hx; [done|]. apply elem_of_cons. auto.
Qed.

Lemma first_inactive_Some s deps d :
  first_inactive s deps = Some d <->
  exists pre post,
    deps = pre ++ d :: post /\
    (forall x, x ∈ pre -> is_active s x = true) /\
    is_active s d = false.
Proof.
  unfold first_inactive. induction deps as [|x deps IH]; simpl.
  - split; [done|]. intros ([|? ?] & post & H & _); done.
  - destruct (is_active s x) eqn:Hx; simpl.
    + rewrite IH. split.
      * intros (pre & post & -> & Hpre & Hd). exists (x :: pre), post.
        split; [done|]. split; [|done].
        intros y [->|Hy]%elem_of_cons; auto.
      * intros ([|y pre] & post & Heq & Hpre & Hd); simplify_eq/=.
        -- congruence.
        -- exists pre, post. split; [done|]. split; [|done].
           intros z Hz. apply Hpre. apply elem_of_cons. auto.
    + split.
      * intros [= <-]. exists [], deps. split; [done|]. split; [|done].
        intros y Hy. by apply elem_of_nil in Hy.
      * intros ([|y pre] & post & Heq & Hpre & Hd); simplify_eq/=; [done|].
        rewrite Hpre in Hx; [done|]. apply elem_of_cons. auto.
Qed.

(** C3, amended.  For a loaded addon that is not active and whose
    dependency list holds identifiers, [activate_addon] makes it active
    exactly when every declared dependency is active and the call of its
    [initialize] succeeds.  When some dependency is not active (absent from
    the registry or only loaded), the first such one in declaration order
    is named by the [ImportError] of [_check_dependencies];
    [activate_addon] logs that error, returns [False], changes nothing and
    makes no call into the unit. *)
Theorem C3_activation_needs_dependencies_and_initialize
    (w : World) (s : AddonManager) (id : string) (m : Module)
    (deps : list string) :
  loaded_addons s !! id = Some m ->
  active_addons s !! id = None ->
  declares s id deps ->
  (result (activate_addon id w s) = Ok true <->
     (forall d, d ∈ deps -> is_active s d = true) /\
     exists v, capability_outcome w m "initialize" = Ok v) /\
  (is_active (final (activate_addon id w s)) id = true <->
     (forall d, d ∈ deps -> is_active s d = true) /\
     exists v, capability_outcome w m "initialize" = Ok v) /\
  (forall pre d post,
     deps = pre ++ d :: post ->
     (forall x, x ∈ pre -> is_active s x = true) ->
     is_active s d = false ->
     _check_dependencies id w s = (Raise (missing_dependency d), s, []) /\
     result (activate_addon id w s) = Ok false /\
     final (activate_addon id w s) = s /\
     events (activate_addon id w s) =
       [Log ERROR ("Failed to activate addon '" +:+ id +:+ "': Dependency '"
                   +:+ d +:+ "' is not active. Please activate it first.")]).
Proof.
  intros Hm Ha Hdecl.
  pose proof (check_dependencies_declared w s id deps Hdecl) as Hc.
  assert (is_active s id = false) as Hid by (by apply contains_false).
  destruct (first_inactive s deps) as [d0|] eqn:Hfi.
  - pose proof (activate_addon_check_fails w s id m _ Hm Ha Hc) as Hact.
    assert (~ forall d, d ∈ deps -> is_active s d = true) as Hnot.
    { intros H. apply first_inactive_None in H. congruence. }
    split; [|split].
    + rewrite Hact. split; [done|]. by intros [? _].
    + rewrite Hact. unfold final. simpl. rewrite Hid. split; [done|]. by intros [? _].
    + intros pre d post Heq Hpre Hd.
      assert (first_inactive s deps = Some d) as Hfd.
      { apply first_inactive_Some. eauto. }
      rewrite Hfi in Hfd. injection Hfd as ->.
      split; [done|]. by rewrite Hact.
  - destruct (activate_addon_check_passes w s id m Hm Ha Hc) as [Hr Hf].
    pose proof (proj1 (first_inactive_None s deps) Hfi) as Hall.
    split; [|split].
    + rewrite Hr. destruct (capability_outcome w m "initialize") as [v|e].
      * split; eauto.
      * split; [done|]. by intros [_ [? ?]].
    + rewrite Hf. destruct (capability_outcome w m "initialize") as [v|e].
      * unfold is_active, contains. simpl. rewrite lookup_insert_eq. split; eauto.
      * rewrite Hid. split; [done|]. by intros [_ [? ?]].
    + intros pre d post Heq Hpre Hd. rewrite Hall in Hd; [done|].
      rewrite Heq. apply elem_of_app. right. apply elem_of_cons. auto.
Qed.

Lemma declares_lookup s id deps :
  (md ← addon_metadata s !! id; Some (dict_get md "dependencies" (VList [])))
  = Some (VList (VStr <$> deps)) ->
  declares s id deps.
Proof.
  intros H. destruct (addon_metadata s !! id) as [md|] eqn:Hmd; [|done].
  simpl in H. injection H as H. by exists md.
Qed.

Lemma declares_loaded_A : declares loaded_A "A" [].
Proof. apply declares_lookup. vm_compute. reflexivity. Qed.

Lemma declares_ready_B : declares ready_B "B" ["A"].
Proof. apply declares_lookup. vm_compute. reflexivity. Qed.

Lemma declares_loaded_AB : declares loaded_AB "B" ["A"].
Proof. apply declares_lookup. vm_compute. reflexivity. Qed.

(** [B] declares [A]: with [A] only loaded the activation of [B] is refused
    and names [A]; with [A] active it goes through. *)
Lemma C3_activation_witness :
  (result (activate_addon "B" calm ready_B) = Ok true /\
   is_active (final (activate_addon "B" calm ready_B)) "B" = true) /\
  (result (activate_addon "B" calm loaded_AB) = Ok false /\
   final (activate_addon "B" calm loaded_AB) = loaded_AB /\
   events (activate_addon "B" calm loaded_AB) =
     [Log ERROR "Failed to activate addon 'B': Dependency 'A' is not active. Please activate it first."]).
Proof.
  split.
  - destruct (C3_activation_needs_dependencies_and_initialize
                calm ready_B "B" unit_B ["A"]) as (H1 & H2 & _).
    + reflexivity.
    + reflexivity.
    + exact declares_ready_B.
    + assert ((forall d, d ∈ ["A"] -> is_active ready_B d = true) /\
              exists v, capability_outcome calm unit_B "initialize" = Ok v) as H.
      { split; [|by eexists].
        intros d Hd. apply list_elem_of_singleton in Hd. by subst d. }
      split; [by apply H1 | by apply H2].
  - destruct (C3_activation_needs_dependencies_and_initialize
                calm loaded_AB "B" unit_B ["A"]) as (_ & _ & H3).
    + reflexivity.
    + reflexivity.
    + exact declares_loaded_AB.
    + destruct (H3 [] "A" []) as (_ & Hr & Hf & He).
      * reflexivity.
      * intros x Hx. by apply elem_of_nil in Hx.
      * reflexivity.
      * split; [exact Hr|]. split; [exact Hf|]. exact He.
Defined.

(** C3 as stated fails: [A] declares no dependency, so all of them are
    active, and yet [activate_addon] does not make it active when its
    [initialize] raises. *)
Lemma C3_counterexample :
  declares loaded_A "A" [] /\
  is_loaded loaded_A "A" = true /\
  is_active loaded_A "A" = false /\
  ~ (is_active (final (activate_addon "A" stormy loaded_A)) "A" = true <->
     forall d, d ∈ ([] : list string) -> is_active loaded_A d = true).
Proof.
  split; [exact declares_loaded_A|]. split; [reflexivity|]. split; [reflexivity|].
  intros [_ H].
  assert (is_active (final (activate_addon "A" stormy loaded_A)) "A" = true) as Hact.
  { apply H. intros d Hd. by apply elem_of_nil in Hd. }
  vm_compute in Hact. discriminate.
Qed.

(** ** Reload as a whole *)

Lemma reload_addon_no_metadata w s n :
  is_loaded s n = true -> has_metadata s n = false ->
  final (reload_addon n w s) =
  set_loaded (delete n)
    (if is_active s n then final (deactivate_addon n w s) else s).
Proof.
  intros Hl Hmd. unfold is_loaded, has_metadata, is_active in *.
  destruct (deactivate_addon_loaded w s n) as (Hdl & Hdm & _).
  unfold reload_addon. unfold_m. rewrite Hl. cbn [negb].
  unfold final in *. unfold contains in Hl, Hmd.
  destruct (contains (active_addons s) n) eqn:Ha.
  - destruct (deactivate_addon n w s) as [[r1 s1] t1] eqn:Hd. simpl in Hdl, Hdm.
    assert (r1 = Ok true \/ r1 = Ok false) as Hr1.
    { destruct (deactivate_addon_summary w s n) as [(?&?&H&_)|[H _]];
        unfold result in H; rewrite Hd in H; simpl in H; eauto. }
    rewrite <- Hdl in Hl. rewrite <- Hdm in Hmd.
    destruct (loaded_addons s1 !! n) eqn:E1; [|done].
    destruct (addon_metadata s1 !! n) eqn:E2; [done|].
    destruct Hr1 as [-> | ->]; simpl; rewrite E1; simpl; rewrite E2; done.
  - destruct (loaded_addons s !! n) eqn:E1; [|done].
    destruct (addon_metadata s !! n) eqn:E2; [done|].
    simpl. rewrite ?E1. simpl. rewrite ?E2. done.
Qed.

(** A property of the manager that every step of a reload keeps is kept by
    the reload. *)
Lemma reload_addon_preserves (P : AddonManager -> Prop) w n :
  (forall s, P s -> P (final (deactivate_addon n w s))) ->
  (forall s, P s -> P (set_loaded (delete n) s)) ->
  (forall s, P s -> P (set_metadata (delete n) (set_loaded (delete n) s))) ->
  (forall s, P s -> P (final (load_addon n w s))) ->
  (forall s, P s -> P (final (activate_addon n w s))) ->
  forall s, P s -> P (final (reload_addon n w s)).
Proof.
  intros Hd Hl Hm Hld Ha s Hs.
  destruct (is_loaded s n) eqn:El.
  - set (s1 := if is_active s n then final (deactivate_addon n w s) else s).
    assert (P s1) as Hs1 by (subst s1; destruct (is_active s n); auto).
    destruct (has_metadata s n) eqn:Em.
    + destruct (reload_addon_steps w s n El Em) as [_ ->]. fold s1.
      assert (P (final (load_addon n w
                          (set_metadata (delete n) (set_loaded (delete n) s1)))))
        as H4 by auto.
      destruct (result (load_addon n w _)) as [[]|]; auto.
      destruct (is_active s n); auto.
    + rewrite (reload_addon_no_metadata w s n El Em). fold s1. auto.
  - by rewrite (reload_addon_not_loaded w s n El).
Qed.

(** ** An addon that depends on itself *)

Lemma check_dependencies_passes_metadata w s id :
  _check_dependencies id w s = (Ok tt, s, []) ->
  exists md, addon_metadata s !! id = Some md.
Proof.
  unfold _check_dependencies, bind, get, subscript.
  destruct (addon_metadata s !! id) as [md|]; [eauto|done].
Qed.

Lemma self_blocked_load id n w s :
  keeps_self_dependency id w ->
  self_blocked id s -> self_blocked id (final (load_addon n w s)).
Proof.
  intros Hw [Ha Hmd].
  destruct (load_addon_summary w s n) as [(m&md&_&->&_&Hi&_&_&Hr)|[_ ->]];
    [|done].
  split; [done|]. intros md'. simpl.
  destruct (decide (n = id)) as [->|Hne].
  - rewrite lookup_insert_eq. intros [= <-]. eauto.
  - rewrite lookup_insert_ne by done. auto.
Qed.

Lemma self_blocked_activate id n w s :
  self_blocked id s -> self_blocked id (final (activate_addon n w s)).
Proof.
  intros [Ha Hmd].
  destruct (activate_addon_summary w s n) as [(m&v&_&->&_&_&Hc&_)|[_ ->]];
    [|done].
  split; [|done]. unfold is_active, contains. simpl.
  destruct (decide (n = id)) as [->|Hne].
  - destruct (check_dependencies_passes_metadata w s id Hc) as [md Hmd'].
    destruct (check_dependencies_self w s id md Hmd' (Hmd md Hmd') Ha) as [e He].
    congruence.
  - rewrite lookup_insert_ne by done. exact Ha.
Qed.

Lemma self_blocked_deactivate id n w s :
  self_blocked id s -> self_blocked id (final (deactivate_addon n w s)).
Proof.
  intros [Ha Hmd].
  destruct (deactivate_addon_summary w s n) as [(m&v&_&->&_)|[_ ->]]; [|done].
  split; [|done]. unfold is_active, contains in *. simpl.
  destruct (decide (n = id)) as [->|Hne].
  - by rewrite lookup_delete_eq.
  - by rewrite lookup_delete_ne.
Qed.

Lemma self_blocked_exec id op w s :
  keeps_self_dependency id w ->
  self_blocked id s -> self_blocked id (final (exec op w s)).
Proof.
  intros Hw Hs. destruct op as [n|n|n|n]; simpl.
  - by apply self_blocked_load.
  - by apply self_blocked_activate.
  - by apply self_blocked_deactivate.
  - apply reload_addon_preserves; [| | | |  |done].
    + intros. by apply self_blocked_deactivate.
    + by intros s' [? ?].
    + intros s' [Ha Hmd]. split; [done|]. intros md. simpl.
      destruct (decide (n = id)) as [->|Hne].
      * by rewrite lookup_delete_eq.
      * rewrite lookup_delete_ne by done. auto.
    + intros. by apply self_blocked_load.
    + intros. by apply self_blocked_activate.
Qed.

Lemma self_blocked_run id ops s :
  Forall (fun ow => keeps_self_dependency id ow.2) ops ->
  self_blocked id s -> self_blocked id (run ops s).
Proof.
  revert s. induction ops as [|[op w] ops IH]; intros s Hops Hs; [done|].
  apply Forall_cons in Hops as [Hw Hops]. simpl.
  apply IH; [done|]. by apply self_blocked_exec.
Qed.

Lemma declares_self_dependent s id deps md :
  declares s id deps -> id ∈ deps ->
  addon_metadata s !! id = Some md -> self_dependent id md.
Proof.
  intros (md' & Hmd' & Hd) Hin Hmd. rewrite Hmd in Hmd'. injection Hmd' as <-.
  exists (VStr <$> deps). split; [done|]. by apply list_elem_of_fmap_2.
Qed.

(** C10, amended.  For a loaded addon that is not active and whose
    dependency list holds its own identifier, [activate_addon] returns
    [False] with the manager unchanged, and the error it logs names the
    first dependency in declaration order that is not active: the addon's
    own identifier exactly when every dependency declared before it is
    active.  Such an addon never becomes active: after any sequence of
    operations during which it goes on declaring itself, it is not
    active. *)
Theorem C10_self_dependency_never_activates (id : string) :
  (forall w s m pre post,
     loaded_addons s !! id = Some m ->
     active_addons s !! id = None ->
     declares s id (pre ++ id :: post) ->
     id ∉ pre ->
     exists d,
       first_inactive s (pre ++ id :: post) = Some d /\
       (d = id <-> forall x, x ∈ pre -> is_active s x = true) /\
       _check_dependencies id w s = (Raise (missing_dependency d), s, []) /\
       result (activate_addon id w s) = Ok false /\
       final (activate_addon id w s) = s /\
       events (activate_addon id w s) =
         [Log ERROR ("Failed to activate addon '" +:+ id +:+ "': Dependency '"
                     +:+ d +:+ "' is not active. Please activate it first.")]) /\
  (forall ops s deps,
     is_loaded s id = true ->
     is_active s id = false ->
     declares s id deps ->
     id ∈ deps ->
     Forall (fun ow => keeps_self_dependency id ow.2) ops ->
     is_active (run ops s) id = false).
Proof.
  split.
  - intros w s m pre post Hm Ha Hdecl Hpre.
    assert (is_active s id = false) as Hid by (by apply contains_false).
    destruct (first_inactive s (pre ++ id :: post)) as [d|] eqn:Hfi.
    + exists d. split; [done|].
      pose proof (check_dependencies_declared w s id _ Hdecl) as Hc.
      rewrite Hfi in Hc.
      pose proof (activate_addon_check_fails w s id m _ Hm Ha Hc) as Hact.
      split; [|split; [done|by rewrite Hact]].
      apply first_inactive_Some in Hfi as (pre' & post' & Heq & Hpre' & Hd).
      split.
      * intros -> x Hx.
        destruct (decide (length pre' < length pre)%nat) as [Hlt|Hge].
        -- exfalso. apply Hpre.
           assert ((pre ++ id :: post) !! length pre' = Some id) as Hlk.
           { rewrite Heq. by rewrite list_lookup_middle. }
           rewrite lookup_app_l in Hlk by done.
           by apply list_elem_of_lookup_2 in Hlk.
        -- apply Hpre'.
           apply list_elem_of_lookup in Hx as [i Hi].
           assert (i < length pre)%nat as Hil by (by eapply lookup_lt_Some).
           assert ((pre' ++ id :: post') !! i = Some x) as Hlk.
           { rewrite <- Heq. by rewrite lookup_app_l. }
           rewrite lookup_app_l in Hlk by lia.
           by apply list_elem_of_lookup_2 in Hlk.
      * intros Hall.
        destruct (decide (length pre' < length pre)%nat) as [Hlt|Hge].
        -- assert ((pre' ++ d :: post') !! length pre' = Some d) as Hlk
             by (by rewrite list_lookup_middle).
           rewrite <- Heq in Hlk. rewrite lookup_app_l in Hlk by done.
           apply list_elem_of_lookup_2 in Hlk. apply Hall in Hlk. congruence.
        -- destruct (decide (length pre' = length pre)) as [Heql|Hne].
           ++ assert ((pre' ++ d :: post') !! length pre' = Some d) as Hlk
                by (by rewrite list_lookup_middle).
              rewrite <- Heq, Heql in Hlk.
              rewrite list_lookup_middle in Hlk by done. congruence.
           ++ assert ((pre ++ id :: post) !! length pre = Some id) as Hlk
                by (by rewrite list_lookup_middle).
              rewrite Heq in Hlk. rewrite lookup_app_l in Hlk by lia.
              apply list_elem_of_lookup_2 in Hlk. apply Hpre' in Hlk. congruence.
    + exfalso. pose proof (proj1 (first_inactive_None s _) Hfi id) as H.
      rewrite H in Hid; [done|]. apply elem_of_app. right. apply elem_of_cons. auto.
  - intros ops s deps _ Ha Hdecl Hin Hops.
    apply (self_blocked_run id ops s Hops). split; [done|].
    intros md. by apply declares_self_dependent with (deps := deps).
Qed.

Lemma declares_loaded_S : declares loaded_S "S" ["B"; "S"].
Proof. apply declares_lookup. vm_compute. reflexivity. Qed.

Lemma keeps_self_dependency_calm : keeps_self_dependency "S" calm.
Proof.
  intros s m md Hi Hr. injection Hi as <-.
  unfold _load_addon_metadata, result in Hr. unfold_m. simpl in Hr.
  injection Hr as <-.
  exists [VStr "B"; VStr "S"]. split; [reflexivity|].
  apply elem_of_cons. right. apply elem_of_cons. by left.
Qed.

(** [S] declares [B] and itself, and [B] is not active: the activation of
    [S] is refused; and [S] is still inactive after [B] has been loaded and
    [S] has been activated, reloaded and activated again. *)
Lemma C10_self_dependency_witness :
  (result (activate_addon "S" calm loaded_S) = Ok false /\
   final (activate_addon "S" calm loaded_S) = loaded_S) /\
  is_active
    (run [(Load "B", calm); (Activate "S", calm); (Reload "S", calm);
          (Activate "S", calm)] loaded_S) "S" = false.
Proof.
  destruct (C10_self_dependency_never_activates "S") as [Ha Hb].
  split.
  - destruct (Ha calm loaded_S unit_S ["B"] []) as (d & _ & _ & _ & Hr & Hf & _).
    + reflexivity.
    + reflexivity.
    + exact declares_loaded_S.
    + intros H. apply list_elem_of_singleton in H. discriminate H.
    + split; [exact Hr | exact Hf].
  - apply (Hb _ loaded_S ["B"; "S"]).
    + reflexivity.
    + reflexivity.
    + exact declares_loaded_S.
    + apply elem_of_cons. right. apply elem_of_cons. by left.
    + repeat (apply Forall_cons; split; [exact keeps_self_dependency_calm|]).
      apply Forall_nil. exact I.
Defined.

(** C10 as stated fails: [S] lists [B] before itself, [B] is not active, and
    the error names [B], not [S]. *)
Lemma C10_counterexample :
  is_loaded loaded_S "S" = true /\
  is_active loaded_S "S" = false /\
  declares loaded_S "S" ["B"; "S"] /\
  _check_dependencies "S" calm loaded_S =
    (Raise (missing_dependency "B"), loaded_S, []) /\
  missing_dependency "B" <> missing_dependency "S" /\
  events (activate_addon "S" calm loaded_S) =
    [Log ERROR "Failed to activate addon 'S': Dependency 'B' is not active. Please activate it first."].
Proof.
  split; [reflexivity|]. split; [reflexivity|].
  split; [exact declares_loaded_S|].
  split.
  { rewrite (check_dependencies_declared calm loaded_S "S" _ declares_loaded_S).
    reflexivity. }
  split; [discriminate|]. vm_compute. reflexivity.
Qed.

(** ** Consistency of the registry *)

Lemma consistent_load n w s :
  consistent s -> consistent (final (load_addon n w s)).
Proof.
  intros [Hal Hlm].
  destruct (load_addon_summary w s n) as [(m&md&_&->&_)|[_ ->]]; [|done].
  unfold consistent, is_active, is_loaded, has_metadata, contains in *. simpl.
  split; intros id; specialize (Hal id); specialize (Hlm id);
    rewrite ?lookup_insert; repeat case_decide; auto.
Qed.

Lemma consistent_activate n w s :
  consistent s -> consistent (final (activate_addon n w s)).
Proof.
  intros [Hal Hlm].
  destruct (activate_addon_summary w s n) as [(m&v&_&->&Hm&_)|[_ ->]]; [|done].
  unfold consistent, is_active, is_loaded, has_metadata, contains in *. simpl.
  split; [|done]. intros id. specialize (Hal id).
  rewrite lookup_insert. case_decide; [subst id; by rewrite Hm|auto].
Qed.

Lemma consistent_deactivate n w s :
  consistent s -> consistent (final (deactivate_addon n w s)).
Proof.
  intros [Hal Hlm].
  destruct (deactivate_addon_summary w s n) as [(m&v&_&->&_)|[_ ->]]; [|done].
  unfold consistent, is_active, is_loaded, has_metadata, contains in *. simpl.
  split; [|done]. intros id. specialize (Hal id).
  rewrite lookup_delete. case_decide; [done|auto].
Qed.

Lemma consistent_unload n s :
  consistent s -> is_active s n = false ->
  consistent (set_metadata (delete n) (set_loaded (delete n) s)).
Proof.
  intros [Hal Hlm] Hn.
  unfold consistent, is_active, is_loaded, has_metadata, contains in *. simpl.
  split; intros id; specialize (Hal id); specialize (Hlm id);
    rewrite ?lookup_delete; repeat case_decide; subst; auto.
  by rewrite Hn.
Qed.

Lemma consistent_reload n w s :
  consistent s ->
  (is_active s n = true -> result (deactivate_addon n w s) = Ok true) ->
  consistent (final (reload_addon n w s)).
Proof.
  intros Hs Hd.
  destruct (is_loaded s n) eqn:El;
    [|by rewrite (reload_addon_not_loaded w s n El)].
  assert (has_metadata s n = true) as Em by (by apply Hs).
  destruct (reload_addon_steps w s n El Em) as [_ ->].
  set (s1 := if is_active s n then final (deactivate_addon n w s) else s).
  assert (consistent s1 /\ is_active s1 n = false) as [Hs1 Hn1].
  { subst s1. destruct (is_active s n) eqn:Ea; [|done].
    split; [by apply consistent_deactivate|].
    specialize (Hd eq_refl).
    destruct (deactivate_addon_summary w s n) as [(m&v&_&->&_)|[H _]];
      [|congruence].
    unfold is_active, contains. simpl. by rewrite lookup_delete_eq. }
  pose proof (consistent_load n w _ (consistent_unload n s1 Hs1 Hn1)) as H4.
  destruct (result (load_addon n w _)) as [[]|]; auto.
  destruct (is_active s n); auto. by apply consistent_activate.
Qed.

Lemma consistent_init dir : consistent (init dir).
Proof. split; intros id H; discriminate H. Qed.

(** The registry stays consistent along every sequence of operations in
    which no reload of an active addon meets a failing [shutdown]. *)
Lemma consistent_run ops s :
  consistent s -> shutdowns_succeed ops s -> consistent (run ops s).
Proof.
  revert s. induction ops as [|[op w] ops IH]; intros s Hs Hops; [done|].
  destruct Hops as [Hop Hrest]. simpl. apply IH; [|done].
  destruct op as [n|n|n|n]; simpl.
  - by apply consistent_load.
  - by apply consistent_activate.
  - by apply consistent_deactivate.
  - by apply consistent_reload.
Qed.

(** Whatever the operations, a loaded addon has its metadata. *)
Lemma loaded_have_metadata_run ops s :
  (forall id, is_loaded s id = true -> has_metadata s id = true) ->
  forall id, is_loaded (run ops s) id = true -> has_metadata (run ops s) id = true.
Proof.
  revert s. induction ops as [|[op w] ops IH]; intros s Hs; [done|].
  simpl. apply IH. clear IH ops. revert s Hs.
  assert (forall n s,
    (forall id, is_loaded s id = true -> has_metadata s id = true) ->
    forall id, is_loaded (final (load_addon n w s)) id = true ->
               has_metadata (final (load_addon n w s)) id = true) as Hload.
  { intros n s Hs id.
    destruct (load_addon_summary w s n) as [(m&md&_&->&_)|[_ ->]]; [|auto].
    specialize (Hs id). unfold is_loaded, has_metadata, contains in *. simpl.
    rewrite !lookup_insert. case_decide; auto. }
  assert (forall n s,
    (forall id, is_loaded s id = true -> has_metadata s id = true) ->
    forall id, is_loaded (final (activate_addon n w s)) id = true ->
               has_metadata (final (activate_addon n w s)) id = true) as Hact.
  { intros n s Hs id.
    destruct (activate_addon_summary w s n) as [(m&v&_&->&_)|[_ ->]];
      exact (Hs id). }
  assert (forall n s,
    (forall id, is_loaded s id = true -> has_metadata s id = true) ->
    forall id, is_loaded (final (deactivate_addon n w s)) id = true ->
               has_metadata (final (deactivate_addon n w s)) id = true) as Hdeact.
  { intros n s Hs id.
    destruct (deactivate_addon_summary w s n) as [(m&v&_&->&_)|[_ ->]];
      exact (Hs id). }
  intros s Hs. destruct op as [n|n|n|n]; simpl; auto.
  apply (reload_addon_preserves
           (fun s => forall id, is_loaded s id = true -> has_metadata s id = true));
    auto.
  - intros s' Hs' id. specialize (Hs' id).
    unfold is_loaded, has_metadata, contains in *. simpl.
    rewrite lookup_delete. case_decide; [done|auto].
  - intros s' Hs' id. specialize (Hs' id).
    unfold is_loaded, has_metadata, contains in *. simpl.
    rewrite !lookup_delete. case_decide; [done|auto].
Qed.

(** C1: the sequence load, activate, reload breaks it.  The [shutdown] of
    [A] raises during the reload; [reload_addon] drops the result of
    [deactivate_addon], removes [A] from [loaded_addons] and
    [addon_metadata], and the load that follows fails on the metadata file:
    [A] is left active without being loaded. *)
Theorem C1_reload_leaves_active_addon_unloaded :
  let s := run [(Load "A", calm); (Activate "A", calm); (Reload "A", stormy)]
               (init "addons") in
  is_active s "A" = true /\
  is_loaded s "A" = false /\
  has_metadata s "A" = false /\
  ~ consistent s.
Proof.
  cbv zeta.
  assert (is_active
            (run [(Load "A", calm); (Activate "A", calm); (Reload "A", stormy)]
               (init "addons")) "A" = true) as Ha by (vm_compute; reflexivity).
  assert (is_loaded
            (run [(Load "A", calm); (Activate "A", calm); (Reload "A", stormy)]
               (init "addons")) "A" = false) as Hl by (vm_compute; reflexivity).
  split; [exact Ha|]. split; [exact Hl|]. split; [vm_compute; reflexivity|].
  intros [H _]. apply H in Ha. congruence.
Qed.

(** ** Reloading *)

(** C2: [reload_addon] does not stop when the deactivation fails.  On the
    active addon [A], in a world where [shutdown] raises,
    [deactivate_addon] returns [False]; the reload goes on to import [A]
    again and to look for its metadata, returns [False], and leaves a
    manager that differs from the one it started from: [A] is gone from
    [loaded_addons] and [addon_metadata] and still in [active_addons]. *)
Theorem C2_reload_goes_on_after_failed_shutdown :
  is_loaded active_A "A" = true /\
  is_active active_A "A" = true /\
  result (deactivate_addon "A" stormy active_A) = Ok false /\
  result (reload_addon "A" stormy active_A) = Ok false /\
  events (reload_addon "A" stormy active_A) =
    [Called 2 [] [];
     Log ERROR "Failed to deactivate addon 'A': boom";
     Imported "A";
     Exists "addons" "A_metadata.json";
     Opened "addons" "A_metadata.json";
     Log ERROR "Failed to load addon 'A': cannot convert dictionary update sequence element #0 to a sequence"] /\
  final (reload_addon "A" stormy active_A) <> active_A /\
  is_loaded (final (reload_addon "A" stormy active_A)) "A" = false /\
  has_metadata (final (reload_addon "A" stormy active_A)) "A" = false /\
  is_active (final (reload_addon "A" stormy active_A)) "A" = true.
Proof.
  assert (is_loaded (final (reload_addon "A" stormy active_A)) "A" = false)
    as Hl by (vm_compute; reflexivity).
  repeat split; try (vm_compute; reflexivity).
  intros H. rewrite H in Hl. vm_compute in Hl. discriminate Hl.
Qed.

(** When the deactivation step of a reload does not fail, the reload does
    what the design says: a failing load leaves no entry for the addon, and
    after a successful load the result is that of the activation, or [True]
    for an addon that was not active. *)
Lemma reload_addon_after_clean_shutdown w s n :
  is_loaded s n = true -> has_metadata s n = true ->
  (is_active s n = true -> result (deactivate_addon n w s) = Ok true) ->
  let s1 := if is_active s n then final (deactivate_addon n w s) else s in
  let s3 := set_metadata (delete n) (set_loaded (delete n) s1) in
  let s4 := final (load_addon n w s3) in
  (result (load_addon n w s3) <> Ok true ->
     result (reload_addon n w s) = Ok false /\
     final (reload_addon n w s) = s3 /\
     unregistered (final (reload_addon n w s)) n) /\
  (result (load_addon n w s3) = Ok true ->
     result (reload_addon n w s) =
       if is_active s n then result (activate_addon n w s4) else Ok true).
Proof.
  intros Hl Hm Hd s1 s3 s4.
  destruct (reload_addon_steps w s n Hl Hm) as [Hr Hf].
  fold s1 s3 s4 in Hr, Hf.
  split.
  - intros Hne.
    assert (result (load_addon n w s3) = Ok false /\ s4 = s3) as [Hr4 Hs4].
    { subst s4. destruct (load_addon_summary w s3 n) as [(?&?&?&_)|[? ?]]; done. }
    rewrite Hr4 in Hr, Hf. rewrite Hs4 in Hf.
    split; [done|]. split; [done|]. rewrite Hf.
    unfold unregistered, is_loaded, is_active, has_metadata, contains.
    subst s3. simpl. rewrite !lookup_delete_eq. split; [done|]. split; [|done].
    subst s1. destruct (is_active s n) eqn:Ea.
    + specialize (Hd eq_refl).
      destruct (deactivate_addon_summary w s n) as [(m&v&_&->&_)|[H _]];
        [|congruence].
      simpl. by rewrite lookup_delete_eq.
    + exact Ea.
  - intros Hok. by rewrite Hok in Hr.
Qed.

(** When the deactivation step fails, the reload still unloads and loads
    again: it returns [False] in every case, the addon stays active, and it
    is no longer loaded when the load fails. *)
Lemma reload_addon_after_failed_shutdown w s n :
  is_loaded s n = true -> has_metadata s n = true -> is_active s n = true ->
  result (deactivate_addon n w s) = Ok false ->
  let s3 := set_metadata (delete n) (set_loaded (delete n) s) in
  result (reload_addon n w s) = Ok false /\
  is_active (final (reload_addon n w s)) n = true /\
  (result (load_addon n w s3) <> Ok true ->
     final (reload_addon n w s) = s3 /\
     is_loaded (final (reload_addon n w s)) n = false).
Proof.
  intros Hl Hm Ha Hd s3.
  destruct (reload_addon_steps w s n Hl Hm) as [Hr Hf].
  rewrite Ha in Hr, Hf.
  assert (final (deactivate_addon n w s) = s) as Hs1.
  { destruct (deactivate_addon_summary w s n) as [(?&?&H&_)|[_ H]];
      [congruence|done]. }
  rewrite Hs1 in Hr, Hf. fold s3 in Hr, Hf.
  assert (is_active s3 n = true) as Ha3 by exact Ha.
  destruct (load_addon_summary w s3 n) as [(m&md&Hr4&Hf4&_)|[Hr4 Hf4]].
  - rewrite Hr4 in Hr, Hf. rewrite Hf4 in Hr, Hf.
    set (s4 := set_loaded (insert n m) (set_metadata (insert n md) s3)) in *.
    assert (is_active s4 n = true) as Ha4 by exact Ha.
    destruct (activate_addon_summary w s4 n) as [(?&?&_&_&_&Hn&_)|[Hr5 Hf5]].
    + apply contains_false in Hn. unfold is_active in Ha4. congruence.
    + rewrite Hr5 in Hr. rewrite Hf5 in Hf. rewrite Hf.
      split; [done|]. split; [done|]. intros H. congruence.
  - rewrite Hr4 in Hr, Hf. rewrite Hf4 in Hf. rewrite Hf.
    split; [done|]. split; [done|]. intros _. split; [done|].
    unfold is_loaded, contains. simpl. by rewrite lookup_delete_eq.
Qed.

(** C8: after a reload whose load step fails the addon can still have an
    active entry.  On the active addon [A], in a world where [shutdown]
    raises and the metadata file cannot be merged, the load step of the
    reload fails and [reload_addon] returns [False], but [A] is still in
    [active_addons]: it is not fully unregistered. *)
Theorem C8_failed_reload_keeps_active_entry :
  is_loaded active_A "A" = true /\
  is_active active_A "A" = true /\
  result (load_addon "A" stormy
            (set_metadata (delete "A") (set_loaded (delete "A") active_A)))
    = Ok false /\
  result (reload_addon "A" stormy active_A) = Ok false /\
  is_active (final (reload_addon "A" stormy active_A)) "A" = true /\
  ~ unregistered (final (reload_addon "A" stormy active_A)) "A".
Proof.
  assert (is_active (final (reload_addon "A" stormy active_A)) "A" = true)
    as Ha by (vm_compute; reflexivity).
  repeat split; try (vm_compute; reflexivity).
  intros (_ & H & _). congruence.
Qed.

(** ** Metadata *)

Lemma load_addon_metadata_eq n m w s :
  _load_addon_metadata n m w s =
  let dir := addon_directory s in
  let file := n +:+ "_metadata.json" in
  if path_exists w dir file then
    match load_json w dir file with
    | Ok o =>
        (Ok (o ∪ declared_metadata n m), s, [Exists dir file; Opened dir file])
    | Raise e =>
        if is_JSONDecodeError e then
          (Ok (declared_metadata n m), s,
           [Exists dir file; Opened dir file;
            Log WARNING ("Invalid metadata file for addon '" +:+ n +:+ "'.")])
        else (Raise e, s, [Exists dir file; Opened dir file])
    end
  else (Ok (declared_metadata n m), s, [Exists dir file]).
Proof.
  unfold _load_addon_metadata, declared_metadata. unfold_m. cbv zeta.
  destruct (path_exists w _ _); [|done].
  destruct (load_json w _ _) as [o|e]; [done|].
  by destruct (is_JSONDecodeError e).
Qed.

Lemma py_getattr_plain m name :
  name <> "__doc__" -> name <> "__name__" ->
  py_getattr m name = bindings m !! name.
Proof.
  intros H1 H2. unfold py_getattr.
  destruct (bindings m !! name); [done|].
  apply String.eqb_neq in H1, H2. by rewrite H1, H2.
Qed.

(** The fields that take their default when the unit does not declare
    them: the version, the author and the dependencies. *)
Lemma declared_metadata_defaults n m :
  declared_metadata n m !! "name" = Some (VStr n) /\
  (bindings m !! "__version__" = None ->
     declared_metadata n m !! "version" = Some (VStr "Unknown")) /\
  (bindings m !! "__author__" = None ->
     declared_metadata n m !! "author" = Some (VStr "Unknown")) /\
  (bindings m !! "__dependencies__" = None ->
     declared_metadata n m !! "dependencies" = Some (VList [])) /\
  (forall v, bindings m !! "__version__" = Some v ->
     declared_metadata n m !! "version" = Some v) /\
  (forall v, bindings m !! "__author__" = Some v ->
     declared_metadata n m !! "author" = Some v) /\
  (forall v, bindings m !! "__dependencies__" = Some v ->
     declared_metadata n m !! "dependencies" = Some v).
Proof.
  unfold declared_metadata, getattr_default.
  rewrite (py_getattr_plain m "__version__"), (py_getattr_plain m "__author__"),
    (py_getattr_plain m "__dependencies__") by done.
  repeat split; first [intros v H | intros H | idtac]; simplify_map_eq; done.
Qed.

(** The description is the docstring, or what the unit binds [__doc__] to;
    without either it is [None], not the default text. *)
Lemma declared_metadata_description n m :
  declared_metadata n m !! "description" =
  Some match bindings m !! "__doc__" with
       | Some v => v
       | None =>
           match docstring m with
           | Some d => VStr d
           | None => VNone
           end
       end.
Proof.
  unfold declared_metadata, getattr_default, py_getattr.
  simplify_map_eq. by destruct (bindings m !! "__doc__").
Qed.

(** A field of the metadata file overrides the field the unit declares; the
    other fields are those of the unit. *)
Lemma metadata_file_overrides n m w s o :
  path_exists w (addon_directory s) (n +:+ "_metadata.json") = true ->
  load_json w (addon_directory s) (n +:+ "_metadata.json") = Ok o ->
  exists md,
    result (_load_addon_metadata n m w s) = Ok md /\
    (forall k v, o !! k = Some v -> md !! k = Some v) /\
    (forall k, o !! k = None -> md !! k = declared_metadata n m !! k).
Proof.
  intros He Hj. rewrite load_addon_metadata_eq. cbv zeta. rewrite He, Hj.
  eexists. split; [done|]. split.
  - intros k v Hk. by apply lookup_union_Some_l.
  - intros k Hk. by apply lookup_union_r.
Qed.

(** A metadata file that is not valid JSON costs a warning and nothing
    else: the load succeeds with the fields the unit declares. *)
Lemma malformed_metadata_file_is_ignored n m w s e :
  loaded_addons s !! n = None ->
  import_module w n = Ok m ->
  has_capability m "initialize" = true ->
  has_capability m "shutdown" = true ->
  path_exists w (addon_directory s) (n +:+ "_metadata.json") = true ->
  load_json w (addon_directory s) (n +:+ "_metadata.json") = Raise e ->
  is_JSONDecodeError e = true ->
  load_addon n w s =
  (Ok true,
   set_loaded (insert n m) (set_metadata (insert n (declared_metadata n m)) s),
   [Imported n;
    Exists (addon_directory s) (n +:+ "_metadata.json");
    Opened (addon_directory s) (n +:+ "_metadata.json");
    Log WARNING ("Invalid metadata file for addon '" +:+ n +:+ "'.");
    Log INFO ("Successfully loaded addon: " +:+ n)]).
Proof.
  intros Hl Hi H1 H2 He Hj Hd.
  unfold load_addon. unfold_m. unfold contains. rewrite Hl, Hi.
  rewrite !capability_check, H1, H2. cbn [negb].
  rewrite load_addon_metadata_eq. cbv zeta. rewrite He, Hj, Hd. done.
Qed.

(** C7: the default of the description is never used.  [A] has no docstring
    and does not bind [__doc__], and there is no metadata file; the load
    succeeds and the description it records is [None], not
    ["No description provided."]. *)
Theorem C7_missing_description_is_None :
  docstring unit_A = None /\
  bindings unit_A !! "__doc__" = None /\
  path_exists calm "addons" "A_metadata.json" = false /\
  result (load_addon "A" calm (init "addons")) = Ok true /\
  (md ← addon_metadata loaded_A !! "A"; md !! "description") = Some VNone /\
  (md ← addon_metadata loaded_A !! "A"; md !! "description")
    <> Some (VStr "No description provided.").
Proof.
  assert ((md ← addon_metadata loaded_A !! "A"; md !! "description") = Some VNone)
    as H by (vm_compute; reflexivity).
  repeat split; try (vm_compute; reflexivity).
  rewrite H. discriminate.
Qed.

Example load_with_malformed_metadata :
  result (load_addon "A" garbled (init "addons")) = Ok true /\
  events (load_addon "A" garbled (init "addons")) =
    [Imported "A";
     Exists "addons" "A_metadata.json";
     Opened "addons" "A_metadata.json";
     Log WARNING "Invalid metadata file for addon 'A'.";
     Log INFO "Successfully loaded addon: A"].
Proof. split; vm_compute; reflexivity. Qed.

Example load_with_metadata_file :
  let md := addon_metadata (final (load_addon "A" documented (init "addons")))
              !! "A" in
  (md ≫= (.!! "version")) = Some (VStr "2.0") /\
  (md ≫= (.!! "author")) = Some (VStr "Unknown") /\
  (md ≫= (.!! "dependencies")) = Some (VList [VStr "A"]).
Proof. repeat split; vm_compute; reflexivity. Qed.

(** ** Calling into an active addon *)

Lemma execute_addon_function_frame id fn args kwargs w s :
  final (execute_addon_function id fn args kwargs w s) = s.
Proof.
  unfold execute_addon_function, final, hasattr. unfold_m.
  destruct (contains (active_addons s) id); [|done]. simpl.
  destruct (active_addons s !! id) as [m|]; [|done].
  destruct (py_getattr m fn) as [[]|]; done.
Qed.

Lemma execute_addon_function_not_active id fn args kwargs w s :
  is_active s id = false ->
  execute_addon_function id fn args kwargs w s =
  (Raise (mkExn ValueError ("Addon '" +:+ id +:+ "' is not active.")), s, []).
Proof.
  intros H. unfold execute_addon_function. unfold_m.
  unfold is_active in H. by rewrite H.
Qed.

Lemma execute_addon_function_no_attribute id fn args kwargs w s m :
  active_addons s !! id = Some m ->
  py_getattr m fn = None ->
  execute_addon_function id fn args kwargs w s =
  (Raise (mkExn AttributeError
            ("Function '" +:+ fn +:+ "' not found in addon '" +:+ id +:+ "'.")),
   s, []).
Proof.
  intros Hm Hf. unfold execute_addon_function, hasattr. unfold_m.
  unfold contains. by rewrite Hm, Hf.
Qed.

Lemma execute_addon_function_dispatch id fn args kwargs w s m f :
  active_addons s !! id = Some m ->
  py_getattr m fn = Some (VCallable f) ->
  execute_addon_function id fn args kwargs w s =
  (call w f args kwargs, s, [Called f args kwargs]).
Proof.
  intros Hm Hf. unfold execute_addon_function, hasattr. unfold_m.
  unfold contains. by rewrite Hm, Hf.
Qed.

(** An attribute that is not callable passes the [hasattr] test, and the
    call raises the [TypeError] of the interpreter. *)
Lemma execute_addon_function_not_callable id fn args kwargs w s m v :
  active_addons s !! id = Some m ->
  py_getattr m fn = Some v ->
  callable v = false ->
  execute_addon_function id fn args kwargs w s =
  (Raise (mkExn TypeError ("'" +:+ type_name v +:+ "' object is not callable")),
   s, []).
Proof.
  intros Hm Hf Hc. unfold execute_addon_function, hasattr. unfold_m.
  unfold contains. rewrite Hm, Hf. by destruct v.
Qed.

(** C9: a name that the unit binds to something that cannot be called is
    not reported as a missing function.  The active unit [A] has the
    attribute [__version__], a string, so it has no callable of that name;
    [execute_addon_function] raises the interpreter's [TypeError] for the
    call of a string, not the [AttributeError] it raises for a function
    that is not found. *)
Theorem C9_attribute_that_is_not_callable :
  is_active active_A "A" = true /\
  py_getattr unit_A "__version__" = Some (VStr "1.0.0") /\
  has_capability unit_A "__version__" = false /\
  execute_addon_function "A" "__version__" [] [] calm active_A =
    (Raise (mkExn TypeError "'str' object is not callable"), active_A, []) /\
  execute_addon_function "A" "__version__" [] [] calm active_A <>
    (Raise (mkExn AttributeError "Function '__version__' not found in addon 'A'."),
     active_A, []).
Proof.
  assert (execute_addon_function "A" "__version__" [] [] calm active_A =
          (Raise (mkExn TypeError "'str' object is not callable"), active_A, []))
    as H.
  { apply (execute_addon_function_not_callable _ _ _ _ _ _ unit_A (VStr "1.0.0"));
      reflexivity. }
  split; [reflexivity|]. split; [reflexivity|]. split; [reflexivity|].
  split; [exact H|]. rewrite H. intros [=].
Qed.

(** * Further properties of the code *)

(** ** What the registry looks like after any sequence of operations *)





(** ** Units in the registry have their lifecycle functions *)

Lemma valid_units_exec op w s :
  valid_units s -> valid_units (final (exec op w s)).
Proof.
  assert (forall n s, valid_units s -> valid_units (final (load_addon n w s)))
    as Hload.
  { intros n s' Hs'.
    destruct (load_addon_summary w s' n) as [(m&md&_&->&_&_&H1&H2&_)|[_ ->]];
      [|done].
    intros id m'. simpl. rewrite lookup_insert. case_decide.
    - intros [[= <-]|Hx]; [done|]. eapply Hs'; eauto.
    - apply Hs'. }
  assert (forall n s, valid_units s -> valid_units (final (activate_addon n w s)))
    as Hact.
  { intros n s' Hs'.
    destruct (activate_addon_summary w s' n) as [(m&v&_&->&Hm&_)|[_ ->]];
      [|done].
    intros id m'. simpl. rewrite lookup_insert. case_decide.
    - intros [Hx|[= <-]]; eapply Hs'; eauto.
    - apply Hs'. }
  assert (forall n s, valid_units s -> valid_units (final (deactivate_addon n w s)))
    as Hdeact.
  { intros n s' Hs'.
    destruct (deactivate_addon_summary w s' n) as [(m&v&_&->&_)|[_ ->]];
      [|done].
    intros id m'. simpl. rewrite lookup_delete. case_decide.
    - intros [Hx|[=]]. eapply Hs'; eauto.
    - apply Hs'. }
  intros Hs. destruct op as [n|n|n|n]; simpl; auto.
  apply reload_addon_preserves; auto.
  - intros s' Hs' id m'. simpl. rewrite lookup_delete. case_decide.
    + intros [[=]|Hx]. eapply Hs'; eauto.
    + apply Hs'.
  - intros s' Hs' id m'. simpl. rewrite lookup_delete. case_decide.
    + intros [[=]|Hx]. eapply Hs'; eauto.
    + apply Hs'.
Qed.

Lemma valid_units_run ops s : valid_units s -> valid_units (run ops s).
Proof.
  revert s. induction ops as [|[op w] ops IH]; intros s Hs; [done|].
  simpl. apply IH. by apply valid_units_exec.
Qed.

(** After any sequence of operations on a fresh manager, every unit that is
    loaded or active has a callable [initialize] and a callable [shutdown]:
    the check of [load_addon] is never bypassed. *)
Theorem registered_units_have_lifecycle (dir : string) (ops : list (Op * World))
    (id : string) (m : Module) :
  loaded_addons (run ops (init dir)) !! id = Some m \/
  active_addons (run ops (init dir)) !! id = Some m ->
  has_capability m "initialize" = true /\ has_capability m "shutdown" = true.
Proof.
  apply (valid_units_run ops (init dir)). intros id' m' [H|H]; done.
Qed.

Lemma registered_units_witness :
  has_capability unit_A "initialize" = true /\
  has_capability unit_A "shutdown" = true.
Proof.
  apply (registered_units_have_lifecycle "addons"
           [(Load "A", calm); (Activate "A", calm); (Reload "A", stormy)]
           "A" unit_A).
  right. reflexivity.
Defined.

(** ** An operation on one addon leaves the others alone *)

Lemma lifecycle_frames n w s :
  (loaded_addons (final (activate_addon n w s)) = loaded_addons s /\
   addon_metadata (final (activate_addon n w s)) = addon_metadata s /\
   addon_directory (final (activate_addon n w s)) = addon_directory s) /\
  (loaded_addons (final (deactivate_addon n w s)) = loaded_addons s /\
   addon_metadata (final (deactivate_addon n w s)) = addon_metadata s /\
   addon_directory (final (deactivate_addon n w s)) = addon_directory s) /\
  (active_addons (final (load_addon n w s)) = active_addons s /\
   addon_directory (final (load_addon n w s)) = addon_directory s).
Proof.
  split; [|split].
  - by destruct (activate_addon_summary w s n) as [(?&?&_&->&_)|[_ ->]].
  - by destruct (deactivate_addon_summary w s n) as [(?&?&_&->&_)|[_ ->]].
  - by destruct (load_addon_summary w s n) as [(?&?&_&->&_)|[_ ->]].
Qed.

(** An operation on the addon [n] changes no entry of another addon, in
    none of the three dictionaries, and never changes the directory. *)
Theorem other_addons_untouched (op : Op) (w : World) (s : AddonManager)
    (id : string) :
  id <> target op ->
  loaded_addons (final (exec op w s)) !! id = loaded_addons s !! id /\
  active_addons (final (exec op w s)) !! id = active_addons s !! id /\
  addon_metadata (final (exec op w s)) !! id = addon_metadata s !! id /\
  addon_directory (final (exec op w s)) = addon_directory s.
Proof.
  intros Hne.
  set (P := fun s' : AddonManager =>
    loaded_addons s' !! id = loaded_addons s !! id /\
    active_addons s' !! id = active_addons s !! id /\
    addon_metadata s' !! id = addon_metadata s !! id /\
    addon_directory s' = addon_directory s).
  assert (forall n s', id <> n -> P s' -> P (final (load_addon n w s'))) as Hload.
  { intros n s' Hn (H1&H2&H3&H4).
    destruct (load_addon_summary w s' n) as [(?&?&_&->&_)|[_ ->]]; [|done].
    split; [|split; [|split]]; simpl; rewrite ?lookup_insert_ne by done; done. }
  assert (forall n s', id <> n -> P s' -> P (final (activate_addon n w s')))
    as Hact.
  { intros n s' Hn (H1&H2&H3&H4).
    destruct (activate_addon_summary w s' n) as [(?&?&_&->&_)|[_ ->]]; [|done].
    split; [|split; [|split]]; simpl; rewrite ?lookup_insert_ne by done; done. }
  assert (forall n s', id <> n -> P s' -> P (final (deactivate_addon n w s')))
    as Hdeact.
  { intros n s' Hn (H1&H2&H3&H4).
    destruct (deactivate_addon_summary w s' n) as [(?&?&_&->&_)|[_ ->]]; [|done].
    split; [|split; [|split]]; simpl; rewrite ?lookup_delete_ne by done; done. }
  assert (P s) as Hs by done.
  change (P (final (exec op w s))).
  destruct op as [n|n|n|n]; simpl in Hne |- *; auto.
  apply reload_addon_preserves; auto.
  - intros s' (H1&H2&H3&H4).
    split; [|split; [|split]]; simpl; rewrite ?lookup_delete_ne by done; done.
  - intros s' (H1&H2&H3&H4).
    split; [|split; [|split]]; simpl; rewrite ?lookup_delete_ne by done; done.
Qed.

(** Reloading [A] in a world where everything fails leaves [B] as it was. *)
Lemma other_addons_untouched_witness :
  loaded_addons (final (exec (Reload "A") stormy active_AB)) !! "B"
    = loaded_addons active_AB !! "B" /\
  active_addons (final (exec (Reload "A") stormy active_AB)) !! "B"
    = active_addons active_AB !! "B".
Proof.
  destruct (other_addons_untouched (Reload "A") stormy active_AB "B")
    as (H1 & H2 & _).
  - simpl. discriminate.
  - split; [exact H1 | exact H2].
Defined.

(** Loading never changes the set of active addons, and activating or
    deactivating never changes the loaded units or the metadata. *)
Theorem loading_and_activation_are_separate (n : string) (w : World)
    (s : AddonManager) :
  active_addons (final (load_addon n w s)) = active_addons s /\
  loaded_addons (final (activate_addon n w s)) = loaded_addons s /\
  addon_metadata (final (activate_addon n w s)) = addon_metadata s /\
  loaded_addons (final (deactivate_addon n w s)) = loaded_addons s /\
  addon_metadata (final (deactivate_addon n w s)) = addon_metadata s.
Proof.
  destruct (lifecycle_frames n w s) as ((H1&H2&_)&(H3&H4&_)&(H5&_)).
  repeat split; assumption.
Qed.

(** ** Round trips *)

Lemma deactivate_addon_active w s n m :
  active_addons s !! n = Some m ->
  result (deactivate_addon n w s) =
    match capability_outcome w m "shutdown" with
    | Ok _ => Ok true
    | Raise _ => Ok false
    end /\
  final (deactivate_addon n w s) =
    match capability_outcome w m "shutdown" with
    | Ok _ => set_active (delete n) s
    | Raise _ => s
    end.
Proof.
  intros Hm.
  unfold deactivate_addon, capability_outcome, result, final. unfold_m.
  unfold contains. rewrite Hm. simpl.
  destruct (py_getattr m "shutdown") as [[| | | | | |f]|]; simpl; try done.
  destruct (call w f [] []); simpl; [|done]. by rewrite Hm.
Qed.

Lemma set_active_delete_insert n m s :
  active_addons s !! n = None ->
  set_active (delete n) (set_active (insert n m) s) = s.
Proof.
  intros H. destruct s as [d l a md]. unfold set_active. simpl in *.
  f_equal. by apply delete_insert_id.
Qed.

Lemma set_active_insert_delete n m s :
  active_addons s !! n = Some m ->
  set_active (insert n m) (set_active (delete n) s) = s.
Proof.
  intros H. destruct s as [d l a md]. unfold set_active. simpl in *.
  f_equal. by apply insert_delete_id.
Qed.

(** Activating an addon and then deactivating it, with a [shutdown] that
    works, gives back the manager one started from. *)
Theorem activate_then_deactivate (w1 w2 : World) (s : AddonManager)
    (n : string) (m : Module) (v : PyVal) :
  loaded_addons s !! n = Some m ->
  result (activate_addon n w1 s) = Ok true ->
  capability_outcome w2 m "shutdown" = Ok v ->
  result (deactivate_addon n w2 (final (activate_addon n w1 s))) = Ok true /\
  final (deactivate_addon n w2 (final (activate_addon n w1 s))) = s.
Proof.
  intros Hm Hact Hsh.
  destruct (activate_addon_summary w1 s n) as [(m'&?&_&->&Hm'&Hn&_)|[H _]];
    [|congruence].
  rewrite Hm in Hm'. injection Hm' as <-.
  destruct (deactivate_addon_active w2 (set_active (insert n m) s) n m)
    as [-> ->]; [simpl; apply lookup_insert_eq|].
  rewrite Hsh. split; [done|]. by apply set_active_delete_insert.
Qed.

Lemma activate_then_deactivate_witness :
  result (deactivate_addon "A" calm (final (activate_addon "A" calm loaded_A)))
    = Ok true /\
  final (deactivate_addon "A" calm (final (activate_addon "A" calm loaded_A)))
    = loaded_A.
Proof.
  apply (activate_then_deactivate calm calm loaded_A "A" unit_A VNone);
    reflexivity.
Defined.

Lemma declares_frame s s' id deps :
  addon_metadata s' = addon_metadata s -> declares s id deps -> declares s' id deps.
Proof. intros H (md&Hmd&Hd). exists md. by rewrite H. Qed.

(** Deactivating an active addon and then activating it again gives back
    the manager one started from, when [initialize] works and the
    dependencies of the addon, which do not include itself, are active. *)
Theorem deactivate_then_activate (w1 w2 : World) (s : AddonManager)
    (n : string) (m : Module) (deps : list string) (v : PyVal) :
  active_addons s !! n = Some m ->
  loaded_addons s !! n = Some m ->
  declares s n deps ->
  (forall d, d ∈ deps -> d <> n /\ is_active s d = true) ->
  result (deactivate_addon n w1 s) = Ok true ->
  capability_outcome w2 m "initialize" = Ok v ->
  result (activate_addon n w2 (final (deactivate_addon n w1 s))) = Ok true /\
  final (activate_addon n w2 (final (deactivate_addon n w1 s))) = s.
Proof.
  intros Ha Hl Hdecl Hdeps Hd Hinit.
  destruct (deactivate_addon_summary w1 s n) as [(m'&?&_&->&_)|[H _]];
    [|congruence].
  set (s' := set_active (delete n) s).
  assert (declares s' n deps) as Hdecl' by (by apply (declares_frame s)).
  assert (first_inactive s' deps = None) as Hfi.
  { apply first_inactive_None. intros d Hin. destruct (Hdeps d Hin) as [Hne Hact].
    unfold is_active, contains in *. subst s'. simpl.
    by rewrite lookup_delete_ne. }
  pose proof (check_dependencies_declared w2 s' n deps Hdecl') as Hc.
  rewrite Hfi in Hc.
  destruct (activate_addon_check_passes w2 s' n m) as [-> ->]; auto.
  { subst s'. simpl. apply lookup_delete_eq. }
  rewrite Hinit. split; [done|]. by apply set_active_insert_delete.
Qed.

Lemma declares_active_AB : declares active_AB "B" ["A"].
Proof. apply declares_lookup. vm_compute. reflexivity. Qed.

Lemma deactivate_then_activate_witness :
  result (activate_addon "B" calm (final (deactivate_addon "B" calm active_AB)))
    = Ok true /\
  final (activate_addon "B" calm (final (deactivate_addon "B" calm active_AB)))
    = active_AB.
Proof.
  apply (deactivate_then_activate calm calm active_AB "B" unit_B ["A"] VNone).
  - reflexivity.
  - reflexivity.
  - exact declares_active_AB.
  - intros d Hd. apply list_elem_of_singleton in Hd. subst d.
    split; [discriminate | reflexivity].
  - reflexivity.
  - reflexivity.
Defined.

(** ** When a load succeeds *)

Lemma load_addon_metadata_directory n m w s1 s2 :
  addon_directory s1 = addon_directory s2 ->
  result (_load_addon_metadata n m w s1) = result (_load_addon_metadata n m w s2).
Proof.
  intros H. rewrite !load_addon_metadata_eq. cbv zeta. rewrite H.
  destruct (path_exists w _ _); [|done].
  destruct (load_json w _ _) as [o|e]; [done|].
  by destruct (is_JSONDecodeError e).
Qed.

Lemma load_addon_metadata_usable n m w s :
  (exists md, result (_load_addon_metadata n m w s) = Ok md) <->
  metadata_usable w (addon_directory s) n = true.
Proof.
  rewrite load_addon_metadata_eq. unfold metadata_usable. cbv zeta.
  unfold result.
  destruct (path_exists w _ _); simpl; [|split; eauto].
  destruct (load_json w _ _) as [o|e]; simpl; [split; eauto|].
  destruct (is_JSONDecodeError e); simpl; split; eauto; try done.
  by intros [? ?].
Qed.

Lemma load_addon_cases w s n m :
  loaded_addons s !! n = None ->
  import_module w n = Ok m ->
  has_capability m "initialize" = true ->
  has_capability m "shutdown" = true ->
  result (load_addon n w s) =
    match result (_load_addon_metadata n m w s) with
    | Ok _ => Ok true
    | Raise _ => Ok false
    end /\
  final (load_addon n w s) =
    match result (_load_addon_metadata n m w s) with
    | Ok md => set_loaded (insert n m) (set_metadata (insert n md) s)
    | Raise _ => s
    end.
Proof.
  intros Hl Hi H1 H2.
  unfold load_addon, result, final. unfold_m. unfold contains. rewrite Hl, Hi.
  rewrite !capability_check, H1, H2. cbn [negb].
  pose proof (load_addon_metadata_frame n m w s) as Hf. unfold final in Hf.
  destruct (_load_addon_metadata n m w s) as [[[md|e] s'] t]; simpl in *;
    by subst s'.
Qed.

(** [load_addon] returns [True] exactly when the identifier has no loaded
    unit, the import works, the unit has a callable [initialize] and a
    callable [shutdown], and the metadata file is absent, or is opened,
    parsed and merged by [dict.update] without an exception, or raises
    [json.JSONDecodeError].  The document of the file need not be a JSON
    object: the empty array, the empty string and an array of pairs are
    merged as well, and the load succeeds.  Nothing else matters: not the
    dependencies the unit declares, not the addons that are loaded or
    active; and any other exception raised while the file is opened, parsed
    or merged (a file that cannot be read, a document that [update]
    rejects) makes the load fail. *)
Theorem load_addon_succeeds_exactly_when (w : World) (s : AddonManager)
    (n : string) :
  result (load_addon n w s) = Ok true <->
  is_loaded s n = false /\
  exists m,
    import_module w n = Ok m /\
    has_capability m "initialize" = true /\
    has_capability m "shutdown" = true /\
    metadata_usable w (addon_directory s) n = true.
Proof.
  split.
  - intros Hr.
    destruct (load_addon_summary w s n) as [(m&md&_&_&Hl&Hi&H1&H2&Hmd)|[H _]];
      [|congruence].
    split; [by apply contains_false|]. exists m.
    repeat split; try done. apply (load_addon_metadata_usable n m w s). eauto.
  - intros (Hl & m & Hi & H1 & H2 & Hu).
    apply contains_false in Hl.
    destruct (load_addon_cases w s n m Hl Hi H1 H2) as [-> _].
    apply (load_addon_metadata_usable n m w s) in Hu as [md ->]. done.
Qed.

(** ** Reload *)

(** [reload_addon] never makes an addon active that was not. *)
Theorem reload_keeps_inactive_addon_inactive (w : World) (s : AddonManager)
    (n id : string) :
  is_active s id = false ->
  is_active (final (reload_addon n w s)) id = false.
Proof.
  intros Hid.
  destruct (decide (id = n)) as [->|Hne].
  - destruct (lifecycle_frames n w
                (set_metadata (delete n) (set_loaded (delete n) s)))
      as (_&_&(Hla&_)).
    destruct (is_loaded s n) eqn:El;
      [|by rewrite (reload_addon_not_loaded w s n El)].
    destruct (has_metadata s n) eqn:Em.
    + destruct (reload_addon_steps w s n El Em) as [_ ->]. rewrite Hid.
      destruct (result (load_addon n w _)) as [[]|];
        unfold is_active in *; by rewrite Hla.
    + rewrite (reload_addon_no_metadata w s n El Em). by rewrite Hid.
  - destruct (other_addons_untouched (Reload n) w s id Hne) as (_&H&_).
    simpl in H. unfold is_active, contains in *. by rewrite H.
Qed.

Lemma reload_keeps_inactive_witness :
  is_active (final (reload_addon "A" calm loaded_A)) "A" = false.
Proof.
  apply reload_keeps_inactive_addon_inactive. reflexivity.
Defined.

Lemma unload_then_register n m md s :
  loaded_addons s !! n = Some m ->
  addon_metadata s !! n = Some md ->
  set_loaded (insert n m)
    (set_metadata (insert n md)
       (set_metadata (delete n) (set_loaded (delete n) s))) = s.
Proof.
  intros Hl Hm. destruct s as [d l a mds]. unfold set_loaded, set_metadata.
  simpl in *. f_equal; by apply insert_delete_id.
Qed.

(** Reloading an addon that is not active, in a world that gives the unit
    and the metadata the manager already holds, returns [True] and leaves
    the manager as it was. *)
Theorem reload_in_unchanged_world (w : World) (s : AddonManager) (n : string)
    (m : Module) (md : gmap string PyVal) :
  loaded_addons s !! n = Some m ->
  addon_metadata s !! n = Some md ->
  is_active s n = false ->
  import_module w n = Ok m ->
  has_capability m "initialize" = true ->
  has_capability m "shutdown" = true ->
  result (_load_addon_metadata n m w s) = Ok md ->
  result (reload_addon n w s) = Ok true /\
  final (reload_addon n w s) = s.
Proof.
  intros Hl Hm Ha Hi H1 H2 Hmd.
  assert (is_loaded s n = true) as El by (apply contains_true; eauto).
  assert (has_metadata s n = true) as Em by (apply contains_true; eauto).
  destruct (reload_addon_steps w s n El Em) as [-> ->]. rewrite Ha.
  set (s3 := set_metadata (delete n) (set_loaded (delete n) s)).
  destruct (load_addon_cases w s3 n m) as [-> ->]; auto.
  { subst s3. simpl. apply lookup_delete_eq. }
  rewrite (load_addon_metadata_directory n m w s3 s) by done.
  rewrite Hmd. split; [done|]. by apply unload_then_register.
Qed.

Lemma reload_in_unchanged_world_witness :
  result (reload_addon "A" calm loaded_A) = Ok true /\
  final (reload_addon "A" calm loaded_A) = loaded_A.
Proof.
  apply (reload_in_unchanged_world calm loaded_A "A" unit_A
           (declared_metadata "A" unit_A)); reflexivity.
Defined.

Lemma reload_addon_active_steps w s n m0 v0 m md :
  is_loaded s n = true -> has_metadata s n = true ->
  active_addons s !! n = Some m0 ->
  capability_outcome w m0 "shutdown" = Ok v0 ->
  import_module w n = Ok m ->
  has_capability m "initialize" = true ->
  has_capability m "shutdown" = true ->
  result (_load_addon_metadata n m w s) = Ok md ->
  let s4 := set_loaded (insert n m)
              (set_metadata (insert n md)
                 (set_metadata (delete n)
                    (set_loaded (delete n) (set_active (delete n) s)))) in
  result (reload_addon n w s) = result (activate_addon n w s4) /\
  final (reload_addon n w s) = final (activate_addon n w s4).
Proof.
  intros El Em Ha Hsh Hi H1 H2 Hmd s4.
  assert (is_active s n = true) as Ea by (apply contains_true; eauto).
  destruct (reload_addon_steps w s n El Em) as [-> ->]. rewrite Ea.
  destruct (deactivate_addon_active w s n m0 Ha) as [_ ->]. rewrite Hsh.
  set (s3 := set_metadata (delete n) (set_loaded (delete n) (set_active (delete n) s))).
  destruct (load_addon_cases w s3 n m) as [-> ->]; auto.
  { subst s3. simpl. apply lookup_delete_eq. }
  rewrite (load_addon_metadata_directory n m w s3 s) by done.
  by rewrite Hmd.
Qed.



(** A reload can return [False] after having changed the registry: when the
    [shutdown] of the old unit works and the load succeeds but the
    [initialize] of the new unit raises, the addon that was active is left
    loaded with the new unit and inactive. *)
Theorem reload_can_leave_addon_inactive (w : World) (s : AddonManager)
    (n : string) (m0 m : Module) (v0 : PyVal) (md : gmap string PyVal)
    (e : Exn) :
  is_loaded s n = true -> has_metadata s n = true ->
  active_addons s !! n = Some m0 ->
  capability_outcome w m0 "shutdown" = Ok v0 ->
  import_module w n = Ok m ->
  has_capability m "initialize" = true ->
  has_capability m "shutdown" = true ->
  result (_load_addon_metadata n m w s) = Ok md ->
  capability_outcome w m "initialize" = Raise e ->
  result (reload_addon n w s) = Ok false /\
  loaded_addons (final (reload_addon n w s)) !! n = Some m /\
  is_active (final (reload_addon n w s)) n = false.
Proof.
  intros El Em Ha Hsh Hi H1 H2 Hmd Hinit.
  destruct (reload_addon_active_steps w s n m0 v0 m md) as [-> ->]; auto.
  set (s4 := set_loaded _ _).
  assert (loaded_addons s4 !! n = Some m) as Hl4
    by (subst s4; simpl; apply lookup_insert_eq).
  assert (is_active s4 n = false) as Ha4.
  { unfold is_active, contains. subst s4. simpl. by rewrite lookup_delete_eq. }
  destruct (activate_addon_summary w s4 n) as [(m'&v&_&_&Hm'&_&_&Hv)|[-> ->]];
    [|done].
  rewrite Hl4 in Hm'. injection Hm' as <-. congruence.
Qed.

Lemma reload_can_leave_addon_inactive_witness :
  is_active active_A "A" = true /\
  result (reload_addon "A" fragile active_A) = Ok false /\
  is_active (final (reload_addon "A" fragile active_A)) "A" = false.
Proof.
  split; [reflexivity|].
  destruct (reload_can_leave_addon_inactive fragile active_A "A" unit_A unit_A
              VNone (declared_metadata "A" unit_A)
              (mkExn (OtherError "RuntimeError") "boom"))
    as (H1 & _ & H2); try reflexivity.
  split; [exact H1 | exact H2].
Defined.

(** Witnesses of the two lemmas on the deactivation step of a reload. *)
Lemma reload_after_clean_shutdown_witness :
  result (reload_addon "A" garbled active_A) = Ok true.
Proof.
  pose proof (reload_addon_after_clean_shutdown garbled active_A "A"
                eq_refl eq_refl (fun _ => eq_refl)) as [_ H].
  rewrite H; reflexivity.
Defined.

Lemma reload_after_failed_shutdown_witness :
  result (reload_addon "A" stormy active_A) = Ok false /\
  is_active (final (reload_addon "A" stormy active_A)) "A" = true.
Proof.
  destruct (reload_addon_after_failed_shutdown stormy active_A "A")
    as (H1 & H2 & _); try reflexivity.
  split; [exact H1 | exact H2].
Defined.

(** ** Consistency along a run *)

(** On a consistent registry, the sequence load, activate, reload,
    deactivate in a world where every [shutdown] works keeps the registry
    consistent. *)
Lemma consistent_run_witness :
  consistent
    (run [(Load "A", calm); (Activate "A", calm); (Reload "A", calm);
          (Deactivate "A", calm)] (init "addons")).
Proof.
  apply consistent_run.
  - apply consistent_init.
  - repeat split.
Defined.

(** ** Deactivation does not look at dependents *)

(** Deactivating an addon on which an active addon depends is not refused:
    it succeeds as soon as the [shutdown] works, and the dependent addon
    stays active with a declared dependency that is no longer active. *)
Theorem deactivation_does_not_cascade (w : World) (s : AddonManager)
    (a b : string) (ma : Module) (v : PyVal) (deps : list string) :
  active_addons s !! a = Some ma ->
  capability_outcome w ma "shutdown" = Ok v ->
  b <> a ->
  is_active s b = true ->
  declares s b deps ->
  a ∈ deps ->
  result (deactivate_addon a w s) = Ok true /\
  is_active (final (deactivate_addon a w s)) a = false /\
  is_active (final (deactivate_addon a w s)) b = true /\
  declares (final (deactivate_addon a w s)) b deps /\
  exists d, first_inactive (final (deactivate_addon a w s)) deps = Some d.
Proof.
  intros Ha Hsh Hne Hb Hdecl Hin.
  destruct (deactivate_addon_active w s a ma Ha) as [-> ->]. rewrite Hsh.
  assert (is_active (set_active (delete a) s) a = false) as Hia.
  { unfold is_active, contains. simpl. by rewrite lookup_delete_eq. }
  split; [done|]. split; [done|]. split.
  { unfold is_active, contains in *. simpl. by rewrite lookup_delete_ne. }
  split; [by apply (declares_frame s)|].
  destruct (first_inactive (set_active (delete a) s) deps) as [d|] eqn:Hfi;
    [eauto|].
  rewrite first_inactive_None in Hfi. rewrite (Hfi a Hin) in Hia. done.
Qed.

Lemma deactivation_does_not_cascade_witness :
  result (deactivate_addon "A" calm active_AB) = Ok true /\
  is_active (final (deactivate_addon "A" calm active_AB)) "B" = true.
Proof.
  destruct (deactivation_does_not_cascade calm active_AB "A" "B" unit_A VNone ["A"])
    as (H1 & _ & H2 & _).
  - reflexivity.
  - reflexivity.
  - discriminate.
  - reflexivity.
  - exact declares_active_AB.
  - apply list_elem_of_singleton. reflexivity.
  - split; [exact H1 | exact H2].
Defined.

(** ** Calls follow the activation *)

(** A function of a loaded unit cannot be called through the manager while
    the addon is inactive; once [activate_addon] has succeeded the call
    reaches the function of the loaded unit with the arguments it was
    given, and its result or its exception comes back unchanged; after a
    successful [deactivate_addon] the call is refused again. *)
Theorem calls_follow_activation (w w1 w2 : World) (s : AddonManager)
    (n fn : string) (m : Module) (f : nat) (args : list PyVal)
    (kwargs : list (string * PyVal)) :
  loaded_addons s !! n = Some m ->
  is_active s n = false ->
  py_getattr m fn = Some (VCallable f) ->
  result (activate_addon n w1 s) = Ok true ->
  let s1 := final (activate_addon n w1 s) in
  let s2 := final (deactivate_addon n w2 s1) in
  execute_addon_function n fn args kwargs w s =
    (Raise (mkExn ValueError ("Addon '" +:+ n +:+ "' is not active.")), s, []) /\
  execute_addon_function n fn args kwargs w s1 =
    (call w f args kwargs, s1, [Called f args kwargs]) /\
  (result (deactivate_addon n w2 s1) = Ok true ->
   execute_addon_function n fn args kwargs w s2 =
     (Raise (mkExn ValueError ("Addon '" +:+ n +:+ "' is not active.")), s2, [])).
Proof.
  intros Hl Ha Hf Hact s1 s2.
  split; [by apply execute_addon_function_not_active|].
  assert (active_addons s1 !! n = Some m) as Ha1.
  { subst s1.
    destruct (activate_addon_summary w1 s n) as [(m'&?&_&->&Hm'&_)|[H _]];
      [|congruence].
    rewrite Hl in Hm'. injection Hm' as <-. simpl. apply lookup_insert_eq. }
  split; [by apply (execute_addon_function_dispatch _ _ _ _ _ _ m)|].
  intros Hd. apply execute_addon_function_not_active. subst s2.
  destruct (deactivate_addon_summary w2 s1 n) as [(?&?&_&->&_)|[H _]];
    [|congruence].
  unfold is_active, contains. simpl. by rewrite lookup_delete_eq.
Qed.

Lemma calls_follow_activation_witness :
  execute_addon_function "A" "shutdown" [VInt 1] [] stormy
    (final (activate_addon "A" calm loaded_A)) =
  (Raise (mkExn (OtherError "RuntimeError") "boom"),
   final (activate_addon "A" calm loaded_A), [Called 2 [VInt 1] []]).
Proof.
  pose proof (calls_follow_activation stormy calm calm loaded_A "A" "shutdown"
                unit_A 2 [VInt 1] [] eq_refl eq_refl eq_refl eq_refl)
    as (_ & H & _).
  exact H.
Defined.

(** ** An addon that is active without being loaded *)

Lemma activate_addon_not_loaded w s n :
  is_loaded s n = false ->
  activate_addon n w s =
  (Ok false, s,
   [Log ERROR ("Cannot activate '" +:+ n +:+ "'. Addon is not loaded.")]).
Proof.
  intros H. unfold activate_addon. unfold_m. unfold is_loaded in H. by rewrite H.
Qed.

Lemma get_addon_info_not_loaded insp w s n :
  is_loaded s n = false ->
  get_addon_info insp n w s =
  (Raise (mkExn ValueError ("Addon '" +:+ n +:+ "' is not loaded.")), s, []).
Proof.
  intros H. unfold get_addon_info. unfold_m. unfold is_loaded in H. by rewrite H.
Qed.

(** The state that a reload leaves behind after a failing [shutdown] and a
    failing load: the addon is in [active_addons] and not in
    [loaded_addons].  The manager then contradicts itself: [get_addon_info],
    [activate_addon] and [reload_addon] answer that the addon is not loaded
    and change nothing, [get_loaded_addons] does not list it, while
    [get_active_addons] lists it and [execute_addon_function] still calls
    into its unit. *)
Theorem stranded_addon (insp : Inspector) (w : World) (s : AddonManager)
    (id fn : string) (m : Module) (f : nat) (args : list PyVal)
    (kwargs : list (string * PyVal)) :
  active_addons s !! id = Some m ->
  is_loaded s id = false ->
  py_getattr m fn = Some (VCallable f) ->
  get_addon_info insp id w s =
    (Raise (mkExn ValueError ("Addon '" +:+ id +:+ "' is not loaded.")), s, []) /\
  activate_addon id w s =
    (Ok false, s,
     [Log ERROR ("Cannot activate '" +:+ id +:+ "'. Addon is not loaded.")]) /\
  reload_addon id w s =
    (Ok false, s,
     [Log ERROR ("Cannot reload '" +:+ id +:+ "'. Addon is not loaded.")]) /\
  (exists l, get_loaded_addons w s = (Ok l, s, []) /\ id ∉ l) /\
  (exists l, get_active_addons w s = (Ok l, s, []) /\ id ∈ l) /\
  execute_addon_function id fn args kwargs w s =
    (call w f args kwargs, s, [Called f args kwargs]).
Proof.
  intros Ha Hl Hf.
  split; [by apply get_addon_info_not_loaded|].
  split; [by apply activate_addon_not_loaded|].
  split; [by apply reload_addon_not_loaded|].
  split.
  { destruct (get_loaded_addons_lists w s id) as (l & Hl' & Hin).
    exists l. split; [done|]. rewrite Hin. congruence. }
  split.
  { destruct (get_active_addons_lists w s id) as (l & Hl' & Hin).
    exists l. split; [done|]. apply Hin. apply contains_true. eauto. }
  by apply (execute_addon_function_dispatch _ _ _ _ _ _ m).
Qed.

Lemma stranded_addon_witness :
  activate_addon "A" calm stranded_A =
    (Ok false, stranded_A,
     [Log ERROR "Cannot activate 'A'. Addon is not loaded."]) /\
  execute_addon_function "A" "initialize" [] [] calm stranded_A =
    (Ok VNone, stranded_A, [Called 1 [] []]).
Proof.
  pose proof (stranded_addon (mkInspector (fun _ => Ok [])) calm stranded_A
                "A" "initialize" unit_A 1 [] [] eq_refl eq_refl eq_refl)
    as (_ & H1 & _ & _ & _ & H2).
  split; [exact H1 | exact H2].
Defined.

(** ** The listings follow the lifecycle *)

(** An addon appears in [get_loaded_addons] once [load_addon] has returned
    [True], in [get_active_addons] once [activate_addon] has, and leaves
    [get_active_addons], but not [get_loaded_addons], once
    [deactivate_addon] has. *)
Theorem listings_follow_lifecycle (w w' : World) (s : AddonManager) (n : string) :
  (result (load_addon n w s) = Ok true ->
   exists l, get_loaded_addons w' (final (load_addon n w s))
             = (Ok l, final (load_addon n w s), []) /\ n ∈ l) /\
  (result (activate_addon n w s) = Ok true ->
   exists la ll,
     get_active_addons w' (final (activate_addon n w s))
       = (Ok la, final (activate_addon n w s), []) /\
     get_loaded_addons w' (final (activate_addon n w s))
       = (Ok ll, final (activate_addon n w s), []) /\
     n ∈ la /\ n ∈ ll) /\
  (result (deactivate_addon n w s) = Ok true ->
   exists la ll,
     get_active_addons w' (final (deactivate_addon n w s))
       = (Ok la, final (deactivate_addon n w s), []) /\
     get_loaded_addons w' (final (deactivate_addon n w s))
       = (Ok ll, final (deactivate_addon n w s), []) /\
     (n ∉ la) /\ (is_loaded s n = true -> n ∈ ll)).
Proof.
  split; [|split].
  - intros Hr.
    destruct (load_addon_summary w s n) as [(m&md&_&Hf&_)|[H _]]; [|congruence].
    destruct (get_loaded_addons_lists w' (final (load_addon n w s)) n)
      as (l & Hl & Hin).
    exists l. split; [done|]. apply Hin. rewrite Hf.
    unfold is_loaded, contains. simpl. by rewrite lookup_insert_eq.
  - intros Hr.
    destruct (activate_addon_summary w s n) as [(m&v&_&Hf&Hm&_)|[H _]];
      [|congruence].
    destruct (get_active_addons_lists w' (final (activate_addon n w s)) n)
      as (la & Hla & Hina).
    destruct (get_loaded_addons_lists w' (final (activate_addon n w s)) n)
      as (ll & Hll & Hinl).
    exists la, ll. split; [done|]. split; [done|]. split.
    + apply Hina. rewrite Hf. unfold is_active, contains. simpl.
      by rewrite lookup_insert_eq.
    + apply Hinl. rewrite Hf. unfold is_loaded, contains. simpl. by rewrite Hm.
  - intros Hr.
    destruct (deactivate_addon_summary w s n) as [(m&v&_&Hf&_)|[H _]];
      [|congruence].
    destruct (get_active_addons_lists w' (final (deactivate_addon n w s)) n)
      as (la & Hla & Hina).
    destruct (get_loaded_addons_lists w' (final (deactivate_addon n w s)) n)
      as (ll & Hll & Hinl).
    exists la, ll. split; [done|]. split; [done|]. split.
    + rewrite Hina, Hf. unfold is_active, contains. simpl.
      by rewrite lookup_delete_eq.
    + intros Hl. apply Hinl. by rewrite Hf.
Qed.

(** ** Witnesses for the metadata lemmas *)

Lemma metadata_file_overrides_witness :
  exists md,
    result (_load_addon_metadata "A" unit_A documented (init "addons")) = Ok md /\
    md !! "version" = Some (VStr "2.0") /\
    md !! "author" = Some (VStr "Unknown").
Proof.
  destruct (metadata_file_overrides "A" unit_A documented (init "addons")
              (<["version" := VStr "2.0"]>
               (<["dependencies" := VList [VStr "A"]]> ∅)) eq_refl eq_refl)
    as (md & Hr & Hover & Hkeep).
  exists md. split; [exact Hr|]. split.
  - apply Hover. reflexivity.
  - rewrite Hkeep by reflexivity. reflexivity.
Defined.

Lemma malformed_metadata_file_witness :
  result (load_addon "A" garbled (init "addons")) = Ok true.
Proof.
  rewrite (malformed_metadata_file_is_ignored "A" unit_A garbled (init "addons")
             (mkExn JSONDecodeError "Expecting value: line 1 column 1 (char 0)")
             eq_refl eq_refl eq_refl eq_refl eq_refl eq_refl eq_refl).
  reflexivity.
Defined.

Lemma declared_metadata_defaults_witness :
  declared_metadata "A" unit_A !! "author" = Some (VStr "Unknown") /\
  declared_metadata "A" unit_A !! "version" = Some (VStr "1.0.0").
Proof.
  destruct (declared_metadata_defaults "A" unit_A) as (_&_&Ha&_&Hv&_).
  split; [apply Ha; reflexivity | apply Hv; reflexivity].
Defined.

(** ** Discovery *)

Lemma string_length_append (s t : string) :
  String.length (s +:+ t) = (String.length s + String.length t)%nat.
Proof. induction s as [|c s IH]; simpl; [done|]. by rewrite IH. Qed.

Lemma substring_all (s : string) : substring 0 (String.length s) s = s.
Proof. induction s as [|c s IH]; simpl; [done|]. by rewrite IH. Qed.

Lemma substring_prefix (s t : string) :
  substring 0 (String.length s) (s +:+ t) = s.
Proof.
  induction s as [|c s IH]; simpl; [by destruct t|]. by rewrite IH.
Qed.

Lemma substring_suffix (s t : string) :
  substring (String.length s) (String.length t) (s +:+ t) = t.
Proof. induction s as [|c s IH]; simpl; [apply substring_all|done]. Qed.

Lemma substring_split (n : nat) (s : string) :
  (n <= String.length s)%nat ->
  substring 0 n s +:+ substring n (String.length s - n) s = s.
Proof.
  revert n. induction s as [|c s IH]; intros [|n] Hn; simpl in *; try lia.
  - reflexivity.
  - rewrite substring_all. reflexivity.
  - change (String c (substring 0 n s +:+ substring n (String.length s - n) s)
            = String c s).
    f_equal. apply IH. lia.
Qed.

Lemma endswith_append (stem suffix : string) :
  endswith (stem +:+ suffix) suffix = true.
Proof.
  unfold endswith. rewrite string_length_append.
  apply andb_true_intro. split; [apply Nat.leb_le; lia|].
  replace (String.length stem + String.length suffix - String.length suffix)%nat
    with (String.length stem) by lia.
  rewrite substring_suffix. apply String.eqb_refl.
Qed.

Lemma drop_last_append (stem suffix : string) :
  drop_last (String.length suffix) (stem +:+ suffix) = stem.
Proof.
  unfold drop_last. rewrite string_length_append.
  replace (String.length stem + String.length suffix - String.length suffix)%nat
    with (String.length stem) by lia.
  apply substring_prefix.
Qed.

Lemma endswith_inv (s suffix : string) :
  endswith s suffix = true ->
  s = drop_last (String.length suffix) s +:+ suffix.
Proof.
  unfold endswith, drop_last. intros [Hlen Heq]%andb_prop.
  apply Nat.leb_le in Hlen. apply String.eqb_eq in Heq.
  pose proof (substring_split (String.length s - String.length suffix) s) as H.
  replace (String.length s - (String.length s - String.length suffix))%nat
    with (String.length suffix) in H by lia.
  rewrite Heq in H. symmetry. apply H. lia.
Qed.

(** [discover_addons] lets the exception of a directory that cannot be
    listed through, without log record.  Otherwise it returns, with one
    log record that counts them and without touching the manager, the
    names [n] for which the directory lists [n.py], except [__init__]: in
    the order of the listing, at most as many as there are files, and
    without repetition when the listing has none. *)
Theorem discover_addons_finds_the_python_files (fs : FileSystem) (w : World)
    (s : AddonManager) :
  (forall e,
     listdir fs (addon_directory s) = Raise e ->
     discover_addons fs w s = (Raise e, s, [])) /\
  (forall listing,
     listdir fs (addon_directory s) = Ok listing ->
     exists names,
       discover_addons fs w s =
         (Ok names, s,
          [Log INFO ("Discovered " +:+ pretty (length names)
                     +:+ " potential addons.")]) /\
       (forall n, n ∈ names <-> (n +:+ ".py") ∈ listing /\ n <> "__init__") /\
       (length names <= length listing)%nat /\
       (NoDup listing -> NoDup names)).
Proof.
  split.
  - intros e He. unfold discover_addons. unfold_m. by rewrite He.
  - intros listing Hl. eexists. split.
    { unfold discover_addons. unfold_m. rewrite Hl. reflexivity. }
    set (keep := fun f => endswith f ".py" && negb (String.eqb f "__init__.py")).
    split; [|split].
    + intros n. rewrite list_elem_of_In, in_map_iff. split.
      * intros (f & <- & [Hin [Hpy Hinit]%andb_prop]%filter_In).
        apply negb_true_iff, String.eqb_neq in Hinit.
        pose proof (endswith_inv f ".py" Hpy) as Hf. simpl in Hf.
        split; [by rewrite list_elem_of_In, <- Hf|].
        intros Hn. apply Hinit. rewrite Hf, Hn. reflexivity.
      * intros [Hin Hn]. exists (n +:+ ".py"). split.
        { apply (drop_last_append n ".py"). }
        apply filter_In. split; [by apply list_elem_of_In|].
        apply andb_true_intro. split; [apply endswith_append|].
        apply negb_true_iff, String.eqb_neq. intros Heq. apply Hn.
        rewrite <- (drop_last_append n ".py"), Heq. reflexivity.
    + rewrite length_map. apply filter_length_le.
    + intros Hnd. apply NoDup_fmap_2_strong.
      * intros f1 f2 [_ [H1 _]%andb_prop]%list_elem_of_In%filter_In
                     [_ [H2 _]%andb_prop]%list_elem_of_In%filter_In Heq.
        rewrite (endswith_inv f1 ".py" H1), (endswith_inv f2 ".py" H2).
        simpl. by rewrite Heq.
      * apply NoDup_ListNoDup, List.NoDup_filter, NoDup_ListNoDup, Hnd.
Qed.

(** The file whose name is the bare extension gives the empty name. *)
Lemma discover_addons_witness :
  exists names,
    discover_addons some_files calm (init "addons") =
      (Ok names, init "addons", [Log INFO "Discovered 3 potential addons."]) /\
    names = ["A"; "B"; ""].
Proof.
  destruct (discover_addons_finds_the_python_files some_files calm (init "addons"))
    as [_ H].
  destruct (H ["A.py"; "__init__.py"; "notes.txt"; "B.py"; ".py"] eq_refl)
    as (names & Hd & _).
  exists names. split.
  - rewrite Hd. f_equal. f_equal.
    assert (names = ["A"; "B"; ""]) as ->; [|reflexivity].
    vm_compute in Hd. by injection Hd as <-.
  - vm_compute in Hd. by injection Hd as <-.
Defined.

(** ** Repeated calls *)

(** Activating twice does not initialise twice: after a successful
    [activate_addon], a second one returns [False] with one warning, makes
    no call into the unit and changes nothing.  Likewise a second
    [deactivate_addon] after a successful one does not call [shutdown]
    again. *)
Theorem repeated_calls_are_refused (w1 w2 : World) (s : AddonManager)
    (n : string) :
  (result (activate_addon n w1 s) = Ok true ->
   activate_addon n w2 (final (activate_addon n w1 s)) =
     (Ok false, final (activate_addon n w1 s),
      [Log WARNING ("Addon '" +:+ n +:+ "' is already active.")])) /\
  (result (deactivate_addon n w1 s) = Ok true ->
   deactivate_addon n w2 (final (deactivate_addon n w1 s)) =
     (Ok false, final (deactivate_addon n w1 s),
      [Log WARNING ("Addon '" +:+ n +:+ "' is not active.")])).
Proof.
  split; intros Hr.
  - destruct (activate_addon_summary w1 s n) as [(m&v&_&->&Hm&_)|[H _]];
      [|congruence].
    unfold activate_addon. unfold_m. unfold contains. simpl.
    by rewrite Hm, lookup_insert_eq.
  - destruct (deactivate_addon_summary w1 s n) as [(m&v&_&->&_)|[H _]];
      [|congruence].
    unfold deactivate_addon. unfold_m. unfold contains. simpl.
    by rewrite lookup_delete_eq.
Qed.

Lemma repeated_calls_witness :
  activate_addon "A" calm (final (activate_addon "A" calm loaded_A)) =
    (Ok false, final (activate_addon "A" calm loaded_A),
     [Log WARNING "Addon 'A' is already active."]) /\
  deactivate_addon "A" calm (final (deactivate_addon "A" calm active_A)) =
    (Ok false, final (deactivate_addon "A" calm active_A),
     [Log WARNING "Addon 'A' is not active."]).
Proof.
  split.
  - apply (repeated_calls_are_refused calm calm loaded_A "A"). reflexivity.
  - apply (repeated_calls_are_refused calm calm active_A "A"). reflexivity.
Defined.

(** The three ways in which [execute_addon_function] fails before any call
    is made, each with the manager unchanged: [ValueError] for an addon
    that is not active, loaded or not; [AttributeError] for a name the
    active unit does not have; and the interpreter's [TypeError] for a name
    the unit binds to something that is not callable. *)
Theorem execute_addon_function_failures (w : World) (s : AddonManager)
    (n fn : string) (args : list PyVal) (kwargs : list (string * PyVal)) :
  (is_active s n = false ->
   execute_addon_function n fn args kwargs w s =
     (Raise (mkExn ValueError ("Addon '" +:+ n +:+ "' is not active.")), s, [])) /\
  (forall m,
     active_addons s !! n = Some m ->
     py_getattr m fn = None ->
     execute_addon_function n fn args kwargs w s =
       (Raise (mkExn AttributeError
                 ("Function '" +:+ fn +:+ "' not found in addon '" +:+ n +:+ "'.")),
        s, [])) /\
  (forall m v,
     active_addons s !! n = Some m ->
     py_getattr m fn = Some v ->
     callable v = false ->
     execute_addon_function n fn args kwargs w s =
       (Raise (mkExn TypeError ("'" +:+ type_name v +:+ "' object is not callable")),
        s, [])).
Proof.
  split; [|split].
  - apply execute_addon_function_not_active.
  - intros m. apply execute_addon_function_no_attribute.
  - intros m v. apply execute_addon_function_not_callable.
Qed.

Lemma execute_addon_function_failures_witness :
  execute_addon_function "A" "initialize" [] [] calm loaded_A =
    (Raise (mkExn ValueError "Addon 'A' is not active."), loaded_A, []) /\
  execute_addon_function "A" "render" [] [] calm active_A =
    (Raise (mkExn AttributeError "Function 'render' not found in addon 'A'."),
     active_A, []) /\
  execute_addon_function "A" "__doc__" [] [] calm active_A =
    (Raise (mkExn TypeError "'NoneType' object is not callable"), active_A, []).
Proof.
  split; [|split].
  - apply (execute_addon_function_failures calm loaded_A "A" "initialize" [] []).
    reflexivity.
  - apply (execute_addon_function_failures calm active_A "A" "render" [] []
             ) with (m := unit_A); reflexivity.
  - destruct (execute_addon_function_failures calm active_A "A" "__doc__" [] [])
      as (_ & _ & H).
    apply (H unit_A VNone); reflexivity.
Defined.

Lemma listings_follow_lifecycle_witness :
  exists la ll,
    get_active_addons calm (final (activate_addon "A" calm loaded_A))
      = (Ok la, final (activate_addon "A" calm loaded_A), []) /\
    get_loaded_addons calm (final (activate_addon "A" calm loaded_A))
      = (Ok ll, final (activate_addon "A" calm loaded_A), []) /\
    "A" ∈ la /\ "A" ∈ ll.
Proof.
  destruct (listings_follow_lifecycle calm calm loaded_A "A") as (_ & H & _).
  apply H. reflexivity.
Defined.
